(** * Virtual Stager: the intake surface and the redesign exchange

    A shallow embedding of [index.tsx]: the page's DOM handles become a
    record, the handlers become functions on the page state, and the
    asynchronous [runRedesigner] becomes a resumable computation with one
    stage per suspension point ([await]). *)

From Stdlib Require Import String Ascii List Bool Arith Lia.
From Stdlib.Strings Require Import Byte.
Import ListNotations.
Open Scope string_scope.
Open Scope list_scope.

(** ** Strings as the platform handles them *)

Module Str.

(** [s.startsWith(p)] *)
Definition startsWith (s p : string) : bool := String.prefix p s.

(** [s.split(c)] for a one-character separator: never the empty list. *)
Fixpoint split (sep : ascii) (s : string) : list string :=
  match s with
  | EmptyString => [EmptyString]
  | String c rest =>
      if Ascii.eqb c sep then EmptyString :: split sep rest
      else match split sep rest with
           | piece :: pieces => String c piece :: pieces
           | [] => [String c EmptyString]
           end
  end.

(** Whether a character occurs in a string. *)
Fixpoint mem (c : ascii) (s : string) : bool :=
  match s with
  | EmptyString => false
  | String d rest => Ascii.eqb d c || mem c rest
  end.

(** JavaScript truthiness of a string: only the empty string is falsy. *)
Definition truthy (s : string) : bool :=
  match s with EmptyString => false | String _ _ => true end.

(** Truthiness of [string | undefined]. *)
Definition truthy_opt (o : option string) : bool :=
  match o with Some s => truthy s | None => false end.

(** The double quote, for string literals that contain it. *)
Definition dquote : string := String (ascii_of_nat 34) EmptyString.

End Str.

(** ** Base64, as [FileReader.readAsDataURL] produces it (RFC 4648) *)

Module Base64.

(** Six bits, most significant first. *)
Inductive sextet : Type :=
  Sextet (b5 b4 b3 b2 b1 b0 : bool).

Definition alphabet : string :=
  "ABCDEFGHIJKLMNOPQRSTUVWXYZabcdefghijklmnopqrstuvwxyz0123456789+/".

Definition pad : ascii := "="%char.

Definition bit (b : bool) (weight : nat) : nat := if b then weight else 0.

Definition index (s : sextet) : nat :=
  let 'Sextet b5 b4 b3 b2 b1 b0 := s in
  bit b5 32 + bit b4 16 + bit b3 8 + bit b2 4 + bit b1 2 + bit b0 1.

Definition char_of_sextet (s : sextet) : ascii :=
  match String.get (index s) alphabet with
  | Some c => c
  | None => pad
  end.

Definition all_sextets : list sextet :=
  let bs := [false; true] in
  flat_map (fun b5 => flat_map (fun b4 => flat_map (fun b3 =>
  flat_map (fun b2 => flat_map (fun b1 => map (fun b0 =>
    Sextet b5 b4 b3 b2 b1 b0) bs) bs) bs) bs) bs) bs.

Definition sextet_of_char (c : ascii) : option sextet :=
  find (fun s => Ascii.eqb (char_of_sextet s) c) all_sextets.

(** The four sextets of three bytes. [Byte.to_bits] lists the bits of a
    byte least significant first. *)
Definition group3 (a b c : byte) : sextet * sextet * sextet * sextet :=
  let '(a0, (a1, (a2, (a3, (a4, (a5, (a6, a7))))))) := Byte.to_bits a in
  let '(b0, (b1, (b2, (b3, (b4, (b5, (b6, b7))))))) := Byte.to_bits b in
  let '(c0, (c1, (c2, (c3, (c4, (c5, (c6, c7))))))) := Byte.to_bits c in
  (Sextet a7 a6 a5 a4 a3 a2, Sextet a1 a0 b7 b6 b5 b4,
   Sextet b3 b2 b1 b0 c7 c6, Sextet c5 c4 c3 c2 c1 c0).

Definition x00 : byte := Byte.x00.

Fixpoint encode (bs : list byte) : string :=
  match bs with
  | [] => EmptyString
  | [a] =>
      let '(s1, s2, _, _) := group3 a x00 x00 in
      String (char_of_sextet s1) (String (char_of_sextet s2)
        (String pad (String pad EmptyString)))
  | [a; b] =>
      let '(s1, s2, s3, _) := group3 a b x00 in
      String (char_of_sextet s1) (String (char_of_sextet s2)
        (String (char_of_sextet s3) (String pad EmptyString)))
  | a :: b :: c :: rest =>
      let '(s1, s2, s3, s4) := group3 a b c in
      String (char_of_sextet s1) (String (char_of_sextet s2)
        (String (char_of_sextet s3) (String (char_of_sextet s4)
          (encode rest))))
  end.

(** The three bytes of four sextets. *)
Definition ungroup (s1 s2 s3 s4 : sextet) : byte * byte * byte :=
  let 'Sextet a7 a6 a5 a4 a3 a2 := s1 in
  let 'Sextet a1 a0 b7 b6 b5 b4 := s2 in
  let 'Sextet b3 b2 b1 b0 c7 c6 := s3 in
  let 'Sextet c5 c4 c3 c2 c1 c0 := s4 in
  (Byte.of_bits (a0, (a1, (a2, (a3, (a4, (a5, (a6, a7))))))),
   Byte.of_bits (b0, (b1, (b2, (b3, (b4, (b5, (b6, b7))))))),
   Byte.of_bits (c0, (c1, (c2, (c3, (c4, (c5, (c6, c7)))))))).

Definition zero : sextet := Sextet false false false false false false.

Definition is_empty (s : string) : bool :=
  match s with EmptyString => true | String _ _ => false end.

(** The decoder that reads back what [encode] writes: quadruples of
    alphabet characters, padding only in the last quadruple. *)
Fixpoint decode (s : string) : option (list byte) :=
  match s with
  | EmptyString => Some []
  | String c1 (String c2 (String c3 (String c4 rest))) =>
      match sextet_of_char c1, sextet_of_char c2 with
      | Some s1, Some s2 =>
          if Ascii.eqb c3 pad then
            if Ascii.eqb c4 pad && is_empty rest then
              let '(a, _, _) := ungroup s1 s2 zero zero in Some [a]
            else None
          else
            match sextet_of_char c3 with
            | Some s3 =>
                if Ascii.eqb c4 pad then
                  if is_empty rest then
                    let '(a, b, _) := ungroup s1 s2 s3 zero in Some [a; b]
                  else None
                else
                  match sextet_of_char c4, decode rest with
                  | Some s4, Some tl =>
                      let '(a, b, c) := ungroup s1 s2 s3 s4 in
                      Some (a :: b :: c :: tl)
                  | _, _ => None
                  end
            | None => None
            end
      | _, _ => None
      end
  | _ => None
  end.

End Base64.

(** ** The data model *)

(** A [File] of the platform: its declared MIME type and its bytes. *)
Record File : Type := {
  type : string;
  bytes : list byte
}.

(** The SDK's [Blob], [Part] and request shapes; every field of a [Part] is
    optional in the SDK, so a part may carry text, inline data, both or
    neither. *)
Record Blob : Type := {
  data : option string;
  mimeType : option string
}.

Record Part : Type := {
  text : option string;
  inlineData : option Blob
}.

Inductive Modality : Type := IMAGE | TEXT.

Record GenerateContentParameters : Type := {
  model : string;
  contents_parts : list Part;
  config_responseModalities : list Modality
}.

Record Content : Type := { parts : option (list Part) }.
Record Candidate : Type := { content : option Content }.
Record GenerateContentResponse : Type := {
  candidates : option (list Candidate)
}.

(** A thrown value, as far as the handler looks at it: [error.message]. *)
Inductive JsError : Type :=
| Error (msg : string)
| TypeError (msg : string).

Definition message (e : JsError) : string :=
  match e with Error m => m | TypeError m => m end.

(** How the promise of [ai.models.generateContent] settles. *)
Inductive Settlement : Type :=
| Rejected (error : JsError)
| Fulfilled (response : GenerateContentResponse).

(** The [img] element that [previewFile] creates. *)
Record PreviewImg : Type := {
  preview_src : string;
  preview_alt : string
}.

(** The DOM handles the handlers read and write. *)
Record Dom : Type := {
  fileInput_files : list File;
  imagePreviewContainer : list PreviewImg;
  stylePromptInput_value : string;
  generateButton_disabled : bool;
  outputImage_src : string;
  outputImage_alt : string;
  outputImage_display : string;
  outputPlaceholder_textContent : string;
  outputPlaceholder_display : string
}.

(** Where the one asynchronous function of the page is suspended.
    [Stalled]: it awaits a promise that will never settle, the file read
    having failed. *)
Inductive Exchange : Type :=
| Idle
| AwaitingRead (file : File) (stylePrompt : string)
| AwaitingResponse (stylePrompt : string)
| Stalled.

(** The page: the DOM, the configured credential, what the handlers have
    sent to the outside (alerts, console entries, remote calls), the
    [FileReader]s of [previewFile] that are still loading, and the state of
    the exchange. *)
Record World : Type := {
  dom : Dom;
  API_KEY : option string;
  alerts : list string;
  console : list (string * JsError);
  requests : list GenerateContentParameters;
  previewReaders : list File;
  exchange : Exchange
}.

(** *** Field updates *)

Definition with_dom (f : Dom -> Dom) (w : World) : World :=
  {| dom := f (dom w); API_KEY := API_KEY w; alerts := alerts w;
     console := console w; requests := requests w;
     previewReaders := previewReaders w; exchange := exchange w |}.

Definition alert (msg : string) (w : World) : World :=
  {| dom := dom w; API_KEY := API_KEY w; alerts := alerts w ++ [msg];
     console := console w; requests := requests w;
     previewReaders := previewReaders w; exchange := exchange w |}.

Definition console_error (label : string) (e : JsError) (w : World) : World :=
  {| dom := dom w; API_KEY := API_KEY w; alerts := alerts w;
     console := console w ++ [(label, e)]; requests := requests w;
     previewReaders := previewReaders w; exchange := exchange w |}.

Definition send (r : GenerateContentParameters) (w : World) : World :=
  {| dom := dom w; API_KEY := API_KEY w; alerts := alerts w;
     console := console w; requests := requests w ++ [r];
     previewReaders := previewReaders w; exchange := exchange w |}.

Definition set_previewReaders (rs : list File) (w : World) : World :=
  {| dom := dom w; API_KEY := API_KEY w; alerts := alerts w;
     console := console w; requests := requests w;
     previewReaders := rs; exchange := exchange w |}.

Definition suspend (x : Exchange) (w : World) : World :=
  {| dom := dom w; API_KEY := API_KEY w; alerts := alerts w;
     console := console w; requests := requests w;
     previewReaders := previewReaders w; exchange := x |}.

Definition set_files (fs : list File) (d : Dom) : Dom :=
  {| fileInput_files := fs;
     imagePreviewContainer := imagePreviewContainer d;
     stylePromptInput_value := stylePromptInput_value d;
     generateButton_disabled := generateButton_disabled d;
     outputImage_src := outputImage_src d;
     outputImage_alt := outputImage_alt d;
     outputImage_display := outputImage_display d;
     outputPlaceholder_textContent := outputPlaceholder_textContent d;
     outputPlaceholder_display := outputPlaceholder_display d |}.

Definition set_preview (imgs : list PreviewImg) (d : Dom) : Dom :=
  {| fileInput_files := fileInput_files d;
     imagePreviewContainer := imgs;
     stylePromptInput_value := stylePromptInput_value d;
     generateButton_disabled := generateButton_disabled d;
     outputImage_src := outputImage_src d;
     outputImage_alt := outputImage_alt d;
     outputImage_display := outputImage_display d;
     outputPlaceholder_textContent := outputPlaceholder_textContent d;
     outputPlaceholder_display := outputPlaceholder_display d |}.

Definition set_stylePrompt (v : string) (d : Dom) : Dom :=
  {| fileInput_files := fileInput_files d;
     imagePreviewContainer := imagePreviewContainer d;
     stylePromptInput_value := v;
     generateButton_disabled := generateButton_disabled d;
     outputImage_src := outputImage_src d;
     outputImage_alt := outputImage_alt d;
     outputImage_display := outputImage_display d;
     outputPlaceholder_textContent := outputPlaceholder_textContent d;
     outputPlaceholder_display := outputPlaceholder_display d |}.

Definition set_disabled (b : bool) (d : Dom) : Dom :=
  {| fileInput_files := fileInput_files d;
     imagePreviewContainer := imagePreviewContainer d;
     stylePromptInput_value := stylePromptInput_value d;
     generateButton_disabled := b;
     outputImage_src := outputImage_src d;
     outputImage_alt := outputImage_alt d;
     outputImage_display := outputImage_display d;
     outputPlaceholder_textContent := outputPlaceholder_textContent d;
     outputPlaceholder_display := outputPlaceholder_display d |}.

Definition set_outputImage_src (v : string) (d : Dom) : Dom :=
  {| fileInput_files := fileInput_files d;
     imagePreviewContainer := imagePreviewContainer d;
     stylePromptInput_value := stylePromptInput_value d;
     generateButton_disabled := generateButton_disabled d;
     outputImage_src := v;
     outputImage_alt := outputImage_alt d;
     outputImage_display := outputImage_display d;
     outputPlaceholder_textContent := outputPlaceholder_textContent d;
     outputPlaceholder_display := outputPlaceholder_display d |}.

Definition set_outputImage_alt (v : string) (d : Dom) : Dom :=
  {| fileInput_files := fileInput_files d;
     imagePreviewContainer := imagePreviewContainer d;
     stylePromptInput_value := stylePromptInput_value d;
     generateButton_disabled := generateButton_disabled d;
     outputImage_src := outputImage_src d;
     outputImage_alt := v;
     outputImage_display := outputImage_display d;
     outputPlaceholder_textContent := outputPlaceholder_textContent d;
     outputPlaceholder_display := outputPlaceholder_display d |}.

Definition set_outputImage_display (v : string) (d : Dom) : Dom :=
  {| fileInput_files := fileInput_files d;
     imagePreviewContainer := imagePreviewContainer d;
     stylePromptInput_value := stylePromptInput_value d;
     generateButton_disabled := generateButton_disabled d;
     outputImage_src := outputImage_src d;
     outputImage_alt := outputImage_alt d;
     outputImage_display := v;
     outputPlaceholder_textContent := outputPlaceholder_textContent d;
     outputPlaceholder_display := outputPlaceholder_display d |}.

Definition set_outputPlaceholder_textContent (v : string) (d : Dom) : Dom :=
  {| fileInput_files := fileInput_files d;
     imagePreviewContainer := imagePreviewContainer d;
     stylePromptInput_value := stylePromptInput_value d;
     generateButton_disabled := generateButton_disabled d;
     outputImage_src := outputImage_src d;
     outputImage_alt := outputImage_alt d;
     outputImage_display := outputImage_display d;
     outputPlaceholder_textContent := v;
     outputPlaceholder_display := outputPlaceholder_display d |}.

Definition set_outputPlaceholder_display (v : string) (d : Dom) : Dom :=
  {| fileInput_files := fileInput_files d;
     imagePreviewContainer := imagePreviewContainer d;
     stylePromptInput_value := stylePromptInput_value d;
     generateButton_disabled := generateButton_disabled d;
     outputImage_src := outputImage_src d;
     outputImage_alt := outputImage_alt d;
     outputImage_display := outputImage_display d;
     outputPlaceholder_textContent := outputPlaceholder_textContent d;
     outputPlaceholder_display := v |}.

(** Statements of a handler run one after the other on the page. *)
Definition Cmd : Type := World -> World.

Definition seq (c1 c2 : Cmd) : Cmd := fun w => c2 (c1 w).

Declare Scope cmd_scope.
Delimit Scope cmd_scope with cmd.
Notation "c1 ;; c2" := (seq c1 c2)
  (at level 61, right associativity) : cmd_scope.

Definition skip : Cmd := fun w => w.

(** ** The intake surface *)

(** [previewFile]: a reader starts loading; its [onloadend] runs later, as
    [previewFile_onloadend]. *)
Definition previewFile (file : File) : Cmd :=
  fun w => set_previewReaders (previewReaders w ++ [file]) w.

(** [reader.onloadend] of [previewFile]: the container is cleared and gets
    one [img]. The source reads [reader.result as string]. *)
Definition previewFile_onloadend (result : string) : Cmd :=
  with_dom (set_preview
    [ {| preview_src := result;
         preview_alt := "Preview of the uploaded room image." |} ]).

Definition handleFiles (files : list File) : Cmd :=
  match nth_error files 0 with
  | Some file =>
      if Str.startsWith (type file) "image/" then previewFile file
      else alert "Please select an image file."
  | None => alert "Please select an image file."
  end.

(** [handleDrop], with [e.dataTransfer] possibly [null]. *)
Definition handleDrop (dataTransfer : option (list File)) : Cmd :=
  match dataTransfer with
  | Some files =>
      if Nat.ltb 0 (List.length files) then
        (with_dom (set_files files) ;; handleFiles files)%cmd
      else skip
  | None => skip
  end.

(** [handleFileSelect], with [target.files] possibly [null]. *)
Definition handleFileSelect (files : option (list File)) : Cmd :=
  match files with
  | Some files => handleFiles files
  | None => skip
  end.

(** ** The redesign exchange *)

(** The media type in the data URL of a file: its declared type, or
    [application/octet-stream] when it declares none. *)
Definition mediaType (file : File) : string :=
  if Str.truthy (type file) then type file else "application/octet-stream".

(** The data URL that [readAsDataURL] delivers for a file. *)
Definition dataURL (file : File) : string :=
  "data:" ++ mediaType file ++ ";base64," ++ Base64.encode (bytes file).

(** [fileToGenerativePart], from the reader's result on: the promise
    resolves with [(reader.result as string).split(',')[1]]. *)
Definition fileToGenerativePart (file : File) (result : string) : Part :=
  let base64EncodedData := nth_error (Str.split ","%char result) 1 in
  {| text := None;
     inlineData := Some {| data := base64EncodedData;
                           mimeType := Some (type file) |} |}.

Definition nl : string := String (ascii_of_nat 10) EmptyString.

(** The template literal of [textPart], line by line. *)
Definition promptText (stylePrompt : string) : string :=
  nl ++
  "          You are a photoshop expert AI. Your task is to perform an inpainting-style edit on the provided image." ++ nl ++
  nl ++
  "          **The Mask:** The " ++ Str.dquote ++ "editable" ++ Str.dquote ++ " area of the image is all furniture, the floor, the rug, and the walls." ++ nl ++
  "  " ++ nl ++
  "          **The Unchanged Area:** The " ++ Str.dquote ++ "uneditable" ++ Str.dquote ++ " area is the window, the window frame, the light coming from the window, and the ceiling. You MUST NOT change these parts. Preserve them exactly as they are in the original image." ++ nl ++
  "  " ++ nl ++
  "          **The Task:** Within the " ++ Str.dquote ++ "editable" ++ Str.dquote ++ " area only, redesign the room to match this style: " ++ Str.dquote ++ stylePrompt ++ Str.dquote ++ nl ++
  "        ".

Definition textPart (stylePrompt : string) : Part :=
  {| text := Some (promptText stylePrompt); inlineData := None |}.

(** The argument of [ai.models.generateContent]. *)
Definition generateContent_request (imagePart : Part) (stylePrompt : string)
  : GenerateContentParameters :=
  {| model := "gemini-2.5-flash-image-preview";
     contents_parts := [imagePart; textPart stylePrompt];
     config_responseModalities := [IMAGE; TEXT] |}.

(** [response.candidates[0].content.parts]: reading through an absent
    value throws a [TypeError] (messages as V8 words them). *)
Definition response_parts (response : GenerateContentResponse)
  : JsError + list Part :=
  match candidates response with
  | None =>
      inl (TypeError "Cannot read properties of undefined (reading '0')")
  | Some cs =>
      match nth_error cs 0 with
      | None =>
          inl (TypeError
                 "Cannot read properties of undefined (reading 'content')")
      | Some candidate =>
          match content candidate with
          | None =>
              inl (TypeError
                     "Cannot read properties of undefined (reading 'parts')")
          | Some c =>
              match parts c with
              | None =>
                  inl (TypeError
                    "response.candidates[0].content.parts is not iterable")
              | Some ps => inr ps
              end
          end
      end
  end.

(** The [for ... of] loop with its [break]: [base64Image] after the loop. *)
Fixpoint scan (ps : list Part) : option string :=
  match ps with
  | [] => None
  | part :: rest =>
      match inlineData part with
      | Some blob => data blob
      | None => scan rest
      end
  end.

(** The branch that displays the result. *)
Definition display_result (base64Image stylePrompt : string) : Cmd :=
  (with_dom (set_outputPlaceholder_display "none") ;;
   with_dom (set_outputImage_src ("data:image/jpeg;base64," ++ base64Image)) ;;
   with_dom (set_outputImage_alt
               ("Redesigned room in the style of " ++ stylePrompt)) ;;
   with_dom (set_outputImage_display "block"))%cmd.

(** The rest of the [try] block once the remote call has settled: the page
    after it, and the value thrown, if any. *)
Definition try_after_call (settled : Settlement) (stylePrompt : string)
  (w : World) : World * option JsError :=
  match settled with
  | Rejected error => (w, Some error)
  | Fulfilled response =>
      match response_parts response with
      | inl error => (w, Some error)
      | inr ps =>
          match scan ps with
          | Some base64Image =>
              if Str.truthy base64Image
              then (display_result base64Image stylePrompt w, None)
              else (w, Some (Error
                "The model did not return an image. Please try again."))
          | None =>
              (w, Some (Error
                "The model did not return an image. Please try again."))
          end
      end
  end.

Definition catch_block (error : JsError) : Cmd :=
  (console_error "Error generating image:" error ;;
   with_dom (set_outputPlaceholder_textContent
               ("Sorry, an error occurred: " ++ message error)) ;;
   with_dom (set_outputPlaceholder_display "block") ;;
   with_dom (set_outputImage_display "none"))%cmd.

Definition finally_block : Cmd :=
  with_dom (set_disabled false).

(** [runRedesigner] from the click to its first [await]. *)
Definition runRedesigner : Cmd := fun w =>
  if negb (Str.truthy_opt (API_KEY w)) then
    alert "API key is not configured. Please set the environment variable." w
  else
    let file := nth_error (fileInput_files (dom w)) 0 in
    let stylePrompt := stylePromptInput_value (dom w) in
    match file with
    | None => alert "Please upload an image first." w
    | Some file =>
        if negb (Str.truthy stylePrompt) then
          alert "Please enter a desired style." w
        else
          (with_dom (set_disabled true) ;;
           with_dom (set_outputImage_display "none") ;;
           with_dom (set_outputPlaceholder_textContent
                       "✨ Generating your new room... Please wait.") ;;
           with_dom (set_outputPlaceholder_display "block") ;;
           suspend (AwaitingRead file stylePrompt))%cmd w
    end.

(** [runRedesigner] from the end of the file read to its second [await]:
    the request is built and sent. *)
Definition runRedesigner_read (file : File) (stylePrompt result : string)
  : Cmd :=
  let imagePart := fileToGenerativePart file result in
  (send (generateContent_request imagePart stylePrompt) ;;
   suspend (AwaitingResponse stylePrompt))%cmd.

(** [runRedesigner] from the settlement of the remote call to its end. *)
Definition runRedesigner_settled (settled : Settlement)
  (stylePrompt : string) : Cmd := fun w =>
  let '(w1, thrown) := try_after_call settled stylePrompt w in
  let w2 := match thrown with
            | Some error => catch_block error w1
            | None => w1
            end in
  (finally_block ;; suspend Idle)%cmd w2.

(** ** The page as an event system *)

Inductive Event : Type :=
| Click
| Drop (dataTransfer : option (list File))
| Change (files : option (list File))
| Input (value : string)
| PreviewLoadEnd (reader : nat) (result : string)
| ReadLoadEnd (result : string)
| Settle (settled : Settlement)
| ReadFailed.

(** The list without its [n]-th element. *)
Fixpoint remove_nth {A : Type} (n : nat) (l : list A) : list A :=
  match l, n with
  | [], _ => []
  | _ :: tl, O => tl
  | x :: tl, S m => x :: remove_nth m tl
  end.

(** What the page does on an event. A disabled button dispatches no click;
    a [change] follows the browser's update of [fileInput.files]; a load
    end or a settlement reaches only the handler that waits for it.
    [ReadFailed] is the load end of a read that failed: [reader.result] is
    [null], so [onloadend] of [fileToGenerativePart] throws at [.split]
    before it calls [resolve]; the promise stays pending and
    [runRedesigner] is never resumed, neither into its [catch] nor into its
    [finally]. *)
Definition step (e : Event) : Cmd := fun w =>
  match e with
  | Click =>
      if generateButton_disabled (dom w) then w else runRedesigner w
  | Drop dataTransfer => handleDrop dataTransfer w
  | Change files =>
      match files with
      | Some fs => (with_dom (set_files fs) ;; handleFileSelect files)%cmd w
      | None => handleFileSelect files w
      end
  | Input value => with_dom (set_stylePrompt value) w
  | PreviewLoadEnd n result =>
      match nth_error (previewReaders w) n with
      | Some _ =>
          (set_previewReaders (remove_nth n (previewReaders w)) ;;
           previewFile_onloadend result)%cmd w
      | None => w
      end
  | ReadLoadEnd result =>
      match exchange w with
      | AwaitingRead file stylePrompt =>
          runRedesigner_read file stylePrompt result w
      | _ => w
      end
  | Settle settled =>
      match exchange w with
      | AwaitingResponse stylePrompt =>
          runRedesigner_settled settled stylePrompt w
      | _ => w
      end
  | ReadFailed =>
      match exchange w with
      | AwaitingRead _ _ => suspend Stalled w
      | _ => w
      end
  end.

Definition run (events : list Event) (w : World) : World :=
  fold_left (fun w e => step e w) events w.

(** The page once [DOMContentLoaded] has wired the handlers. *)
Definition boot (key : option string) (d : Dom) : World :=
  {| dom := d; API_KEY := key; alerts := []; console := [];
     requests := []; previewReaders := []; exchange := Idle |}.

(** An element is shown unless its [display] is [none]. *)
Definition visible (display : string) : bool :=
  negb (String.eqb display "none").

(** Events of the user and of the preview readers: everything but the two
    resumptions of the exchange. *)
Definition intake_event (e : Event) : bool :=
  match e with
  | ReadLoadEnd _ | Settle _ | ReadFailed => false
  | _ => true
  end.

(** ** Vocabulary of the specification *)

(** A response with one candidate whose content is the given parts. *)
Definition response_of (ps : list Part) : GenerateContentResponse :=
  {| candidates := Some [ {| content := Some {| parts := Some ps |} |} ] |}.

(** The three preconditions of the exchange, in the order the
    specification lists them. *)
Inductive Violation : Type := NoCredential | NoImage | NoStyle.

Definition credential_configured (w : World) : bool :=
  Str.truthy_opt (API_KEY w).

Definition image_present (w : World) : bool :=
  match fileInput_files (dom w) with [] => false | _ :: _ => true end.

Definition style_nonempty (w : World) : bool :=
  negb (String.eqb (stylePromptInput_value (dom w)) "").

Definition first_violation (w : World) : option Violation :=
  if negb (credential_configured w) then Some NoCredential
  else if negb (image_present w) then Some NoImage
  else if negb (style_nonempty w) then Some NoStyle
  else None.

Definition violation_alert (v : Violation) : string :=
  match v with
  | NoCredential =>
      "API key is not configured. Please set the environment variable."
  | NoImage => "Please upload an image first."
  | NoStyle => "Please enter a desired style."
  end.

Definition is_click (e : Event) : bool :=
  match e with Click => true | _ => false end.

(** One image part, then one text part. *)
Definition request_shape (r : GenerateContentParameters) : Prop :=
  exists (blob : Blob) (t : string),
    contents_parts r =
      [ {| text := None; inlineData := Some blob |};
        {| text := Some t; inlineData := None |} ].

(** Once the exchange is suspended the trigger is disabled. *)
Definition suspended_disabled (w : World) : Prop :=
  exchange w <> Idle -> generateButton_disabled (dom w) = true.

(** Whether a settlement of the remote call yields an image to display. *)
Definition succeeded (settled : Settlement) : bool :=
  match settled with
  | Rejected _ => false
  | Fulfilled response =>
      match response_parts response with
      | inl _ => false
      | inr ps => Str.truthy_opt (scan ps)
      end
  end.

(** The output surface shows a failure: the placeholder carries the
    message and is visible, the output image is hidden. *)
Definition failure_surfaced (msg : string) (w : World) : Prop :=
  outputPlaceholder_textContent (dom w)
    = ("Sorry, an error occurred: " ++ msg)%string /\
  visible (outputPlaceholder_display (dom w)) = true /\
  visible (outputImage_display (dom w)) = false.

Definition no_image_message : string :=
  "The model did not return an image. Please try again.".

Definition is_image (file : File) : bool :=
  Str.startsWith (type file) "image/".

(** The alert of [handleFiles]. *)
Definition rejection : string := "Please select an image file.".

(** ** Page setup *)

(** The output image element and the first paragraph of the output
    container, as the document holds them before the handlers run. *)
Record OutputImage : Type := {
  src : string;
  alt : string;
  style_display : string
}.

Record Paragraph : Type := {
  textContent : string;
  paragraph_display : string
}.

(** What the lookups of [DOMContentLoaded] find: [None] where
    [getElementById] (or [querySelector]) returns [null]. The drop area is
    known by whether its class list holds [highlight]. *)
Record Document : Type := {
  room_image : option (list File);
  drop_area : option bool;
  image_preview_container : option (list PreviewImg);
  style_prompt : option string;
  generate_button : option bool;
  output_image_container : option (option Paragraph);
  output_image : option OutputImage
}.

(** How the listener of [DOMContentLoaded] ends: with the handlers wired
    to the page, with the diagnostic on the console and nothing wired, or
    with an exception that nothing catches. *)
Inductive Setup : Type :=
| Wired (w : World) (highlight : bool)
| NotWired (diagnostic : string)
| Uncaught (error : JsError).

(** The listener of [DOMContentLoaded], down to the guard. The paragraph
    is looked up in the output container before the guard tests the
    container. *)
Definition DOMContentLoaded (key : option string) (doc : Document) : Setup :=
  match output_image_container doc with
  | None =>
      Uncaught
        (TypeError "Cannot read properties of null (reading 'querySelector')")
  | Some outputPlaceholder =>
      match room_image doc, drop_area doc, image_preview_container doc,
            style_prompt doc, generate_button doc, output_image doc,
            outputPlaceholder with
      | Some files, Some highlight, Some imgs, Some value, Some disabled,
        Some img, Some p =>
          Wired
            (boot key
               {| fileInput_files := files;
                  imagePreviewContainer := imgs;
                  stylePromptInput_value := value;
                  generateButton_disabled := disabled;
                  outputImage_src := src img;
                  outputImage_alt := alt img;
                  outputImage_display := style_display img;
                  outputPlaceholder_textContent := textContent p;
                  outputPlaceholder_display := paragraph_display p |})
            highlight
      | _, _, _, _, _, _, _ =>
          NotWired "One or more required elements were not found in the DOM."
      end
  end.

(** The seven lookups by id and the paragraph inside the container. *)
Definition present {A : Type} (o : option A) : bool :=
  match o with Some _ => true | None => false end.

Definition all_elements_found (doc : Document) : bool :=
  present (room_image doc) && present (drop_area doc) &&
  present (image_preview_container doc) && present (style_prompt doc) &&
  present (generate_button doc) && present (output_image doc) &&
  match output_image_container doc with
  | Some (Some _) => true
  | _ => false
  end.

(** ** Drag events *)

Inductive DragKind : Type := dragenter | dragover | dragleave | drop.

(** Where on the page a drag event is targeted: on the drop area (or
    inside it), or on the rest of the body. *)
Inductive DragTarget : Type := OnDropArea | OnBody.

Record DragEvent : Type := {
  kind : DragKind;
  target : DragTarget;
  transfer : option (list File)
}.

(** Whether the platform dispatches a drag event of this kind as
    cancelable: [dragleave] is not. *)
Definition cancelable_kind (k : DragKind) : bool :=
  match k with
  | dragleave => false
  | dragenter | dragover | drop => true
  end.

(** What [preventDefault] and [stopPropagation] leave on an event. *)
Record EventFlags : Type := {
  cancelable : bool;
  defaultPrevented : bool;
  propagationStopped : bool
}.

(** The page with the [highlight] class of the drop area. *)
Record Surface : Type := {
  world : World;
  dropArea_highlight : bool
}.

(** [e.preventDefault()] does nothing to an event that is not
    cancelable; [e.stopPropagation()] always takes effect. *)
Definition preventDefaults (flags : EventFlags) : EventFlags :=
  {| cancelable := cancelable flags;
     defaultPrevented := defaultPrevented flags || cancelable flags;
     propagationStopped := true |}.

(** The flags of a drag event as the platform dispatches it. *)
Definition dispatched (ev : DragEvent) : EventFlags :=
  {| cancelable := cancelable_kind (kind ev);
     defaultPrevented := false;
     propagationStopped := false |}.

Definition highlight (s : Surface) : Surface :=
  {| world := world s; dropArea_highlight := true |}.

Definition unhighlight (s : Surface) : Surface :=
  {| world := world s; dropArea_highlight := false |}.

(** The listeners of the drop area for one kind of event, in the order
    they were added: [preventDefaults], then [highlight] or [unhighlight],
    then [handleDrop]. *)
Definition dropArea_listeners (ev : DragEvent) (s : Surface)
  (flags : EventFlags) : Surface * EventFlags :=
  let flags := preventDefaults flags in
  match kind ev with
  | dragenter | dragover => (highlight s, flags)
  | dragleave => (unhighlight s, flags)
  | drop =>
      let s := unhighlight s in
      ({| world := handleDrop (transfer ev) (world s);
          dropArea_highlight := dropArea_highlight s |}, flags)
  end.

(** The listener of [document.body]. *)
Definition body_listeners (s : Surface) (flags : EventFlags)
  : Surface * EventFlags :=
  (s, preventDefaults flags).

(** A drag event runs the listeners of its target and then bubbles to the
    body, unless its propagation was stopped on the way. *)
Definition dispatch (ev : DragEvent) (s : Surface) : Surface * EventFlags :=
  let fresh := dispatched ev in
  match target ev with
  | OnDropArea =>
      let '(s1, flags) := dropArea_listeners ev s fresh in
      if propagationStopped flags then (s1, flags)
      else body_listeners s1 flags
  | OnBody => body_listeners s fresh
  end.

Definition drag (events : list DragEvent) (s : Surface) : Surface :=
  fold_left (fun s ev => fst (dispatch ev s)) events s.

(** The highlight that a sequence of drag events leaves, told from the
    events alone: the last event on the drop area decides. *)
Fixpoint highlight_after (events : list DragEvent) (initial : bool) : bool :=
  match events with
  | [] => initial
  | ev :: rest =>
      highlight_after rest
        match target ev, kind ev with
        | OnBody, _ => initial
        | OnDropArea, (dragenter | dragover) => true
        | OnDropArea, (dragleave | drop) => false
        end
  end.

(** The drops that reach [handleDrop], as events of the page. *)
Definition drops_on_area (events : list DragEvent) : list Event :=
  flat_map
    (fun ev =>
       match target ev, kind ev with
       | OnDropArea, drop => [Drop (transfer ev)]
       | _, _ => []
       end)
    events.

(** ** Further vocabulary *)

Definition is_settle (e : Event) : bool :=
  match e with Settle _ => true | _ => false end.

(** The output image and the placeholder, as the user sees them. *)
Definition output_surface (d : Dom)
  : string * string * string * string * string :=
  (outputImage_src d, outputImage_alt d, outputImage_display d,
   outputPlaceholder_textContent d, outputPlaceholder_display d).

Definition generating_text : string :=
  "✨ Generating your new room... Please wait.".

Definition preview_of (result : string) : PreviewImg :=
  {| preview_src := result;
     preview_alt := "Preview of the uploaded room image." |}.

(** The alerts the page can raise. *)
Definition known_alerts : list string :=
  [ rejection; violation_alert NoCredential; violation_alert NoImage;
    violation_alert NoStyle ].

(** A request as [runRedesigner] builds it: for some file read, with a
    style that is not empty. *)
Definition built_by_exchange (r : GenerateContentParameters) : Prop :=
  exists (file : File) (result stylePrompt : string),
    r = generateContent_request (fileToGenerativePart file result) stylePrompt /\
    Str.truthy stylePrompt = true.

(** What every history keeps about the credential, the style and the
    requests. *)
Definition guarded (w : World) : Prop :=
  (forall file stylePrompt,
      exchange w = AwaitingRead file stylePrompt ->
      Str.truthy stylePrompt = true /\ credential_configured w = true) /\
  Forall built_by_exchange (requests w) /\
  (requests w <> [] -> credential_configured w = true).

(** The trigger is disabled exactly while the exchange is suspended. *)
Definition trigger_tracks_exchange (w : World) : Prop :=
  generateButton_disabled (dom w) = true <-> exchange w <> Idle.

(** ** Facts about strings and Base64 *)

Section StrFacts.

Lemma split_no_sep (sep : ascii) (s : string) :
  Str.mem sep s = false -> Str.split sep s = [s].
Proof.
  induction s as [|c s IH]; simpl; [reflexivity|].
  intros H. apply orb_false_iff in H as [Hc Hs].
  rewrite Hc, (IH Hs). reflexivity.
Qed.

Lemma split_app (sep : ascii) (h t : string) :
  Str.mem sep h = false ->
  Str.split sep (h ++ String sep t) = h :: Str.split sep t.
Proof.
  induction h as [|c h IH]; simpl.
  - intros _. rewrite Ascii.eqb_refl. reflexivity.
  - intros H. apply orb_false_iff in H as [Hc Hs].
    rewrite Hc, (IH Hs). reflexivity.
Qed.

Lemma mem_app (c : ascii) (s t : string) :
  Str.mem c (s ++ t) = Str.mem c s || Str.mem c t.
Proof.
  induction s as [|d s IH]; simpl; [reflexivity|].
  rewrite IH. apply orb_assoc.
Qed.

End StrFacts.

Section Base64Facts.
Import Base64.

Lemma sextet_of_char_of_sextet (s : sextet) :
  sextet_of_char (char_of_sextet s) = Some s.
Proof. destruct s as [[] [] [] [] [] []]; vm_compute; reflexivity. Qed.

Lemma char_of_sextet_not_pad (s : sextet) :
  Ascii.eqb (char_of_sextet s) pad = false.
Proof. destruct s as [[] [] [] [] [] []]; vm_compute; reflexivity. Qed.

Lemma char_of_sextet_not_comma (s : sextet) :
  Ascii.eqb (char_of_sextet s) ","%char = false.
Proof. destruct s as [[] [] [] [] [] []]; vm_compute; reflexivity. Qed.

(** Case analysis on the bits of three bytes at once. *)
Lemma group3_cases (a b c : byte) :
  exists s1 s2 s3 s4,
    group3 a b c = (s1, s2, s3, s4) /\
    ungroup s1 s2 s3 s4 = (a, b, c).
Proof.
  unfold group3.
  destruct (Byte.to_bits a)
    as [a0 [a1 [a2 [a3 [a4 [a5 [a6 a7]]]]]]] eqn:Ea.
  destruct (Byte.to_bits b)
    as [b0 [b1 [b2 [b3 [b4 [b5 [b6 b7]]]]]]] eqn:Eb.
  destruct (Byte.to_bits c)
    as [c0 [c1 [c2 [c3 [c4 [c5 [c6 c7]]]]]]] eqn:Ec.
  do 4 eexists. split; [reflexivity|].
  unfold ungroup. rewrite <- Ea, <- Eb, <- Ec.
  rewrite !Byte.of_bits_to_bits. reflexivity.
Qed.

End Base64Facts.

Section Base64RoundTrip.
Import Base64.

Lemma ungroup_first (s1 s2 s3 s4 t3 t4 : sextet) :
  fst (fst (ungroup s1 s2 s3 s4)) = fst (fst (ungroup s1 s2 t3 t4)).
Proof. destruct s1, s2, s3, s4, t3, t4; reflexivity. Qed.

Lemma ungroup_second (s1 s2 s3 s4 t4 : sextet) :
  snd (fst (ungroup s1 s2 s3 s4)) = snd (fst (ungroup s1 s2 s3 t4)).
Proof. destruct s1, s2, s3, s4, t4; reflexivity. Qed.

Lemma decode_encode_upto (n : nat) :
  forall bs : list byte,
    List.length bs <= n -> decode (encode bs) = Some bs.
Proof.
  induction n as [|n IH]; intros bs Hlen.
  - destruct bs; [reflexivity | simpl in Hlen; lia].
  - destruct bs as [|a [|b [|c rest]]].
    + reflexivity.
    + cbn [encode].
      destruct (group3_cases a x00 x00) as (s1 & s2 & s3 & s4 & Hg & Hu).
      rewrite Hg. cbn [decode].
      rewrite !sextet_of_char_of_sextet, !Ascii.eqb_refl. cbn [andb is_empty].
      pose proof (ungroup_first s1 s2 zero zero s3 s4) as Hf.
      rewrite Hu in Hf.
      destruct (ungroup s1 s2 zero zero) as [[a' b'] c'].
      simpl in Hf. subst a'. reflexivity.
    + cbn [encode].
      destruct (group3_cases a b x00) as (s1 & s2 & s3 & s4 & Hg & Hu).
      rewrite Hg. cbn [decode].
      rewrite !sextet_of_char_of_sextet, char_of_sextet_not_pad,
        !Ascii.eqb_refl.
      cbn [is_empty].
      pose proof (ungroup_first s1 s2 s3 zero s3 s4) as Hf.
      pose proof (ungroup_second s1 s2 s3 zero s4) as Hs.
      rewrite Hu in Hf, Hs.
      destruct (ungroup s1 s2 s3 zero) as [[a' b'] c'].
      simpl in Hf, Hs. subst a' b'. reflexivity.
    + cbn [encode].
      destruct (group3_cases a b c) as (s1 & s2 & s3 & s4 & Hg & Hu).
      rewrite Hg. cbn [decode].
      rewrite !sextet_of_char_of_sextet, !char_of_sextet_not_pad.
      rewrite IH by (simpl in Hlen; lia).
      rewrite Hu. reflexivity.
Qed.

(** Decoding what [readAsDataURL] encodes gives the bytes back. *)
Lemma decode_encode (bs : list byte) : decode (encode bs) = Some bs.
Proof. apply (decode_encode_upto (List.length bs)). lia. Qed.

Lemma encode_no_comma_upto (n : nat) :
  forall bs : list byte,
    List.length bs <= n -> Str.mem ","%char (encode bs) = false.
Proof.
  induction n as [|n IH]; intros bs Hlen.
  - destruct bs; [reflexivity | simpl in Hlen; lia].
  - destruct bs as [|a [|b [|c rest]]]; [reflexivity| | |].
    + cbn [encode]. destruct (group3 a x00 x00) as [[[s1 s2] s3] s4].
      cbn [Str.mem]. rewrite !char_of_sextet_not_comma. reflexivity.
    + cbn [encode]. destruct (group3 a b x00) as [[[s1 s2] s3] s4].
      cbn [Str.mem]. rewrite !char_of_sextet_not_comma. reflexivity.
    + cbn [encode]. destruct (group3 a b c) as [[[s1 s2] s3] s4].
      cbn [Str.mem]. rewrite !char_of_sextet_not_comma.
      rewrite IH by (simpl in Hlen; lia). reflexivity.
Qed.

Lemma encode_no_comma (bs : list byte) :
  Str.mem ","%char (encode bs) = false.
Proof. apply (encode_no_comma_upto (List.length bs)). lia. Qed.

End Base64RoundTrip.

(** ** Frame properties of the handlers *)

Ltac unfold_cmds :=
  unfold seq, skip, with_dom, alert, console_error, send,
    set_previewReaders, suspend in *.

Ltac crush_handler :=
  unfold_cmds; cbn;
  repeat match goal with
         | |- context [match ?x with _ => _ end] => destruct x; cbn
         end;
  auto.

Section Frames.

Lemma handleFiles_frame (files : list File) (w : World) :
  dom (handleFiles files w) = dom w /\
  exchange (handleFiles files w) = exchange w /\
  requests (handleFiles files w) = requests w /\
  API_KEY (handleFiles files w) = API_KEY w.
Proof. unfold handleFiles, previewFile. crush_handler. Qed.

(** An intake event that is not an effective click leaves the exchange,
    the requests, the credential and the trigger as they are. *)
Lemma intake_frame (e : Event) (w : World) :
  intake_event e = true ->
  (e = Click -> generateButton_disabled (dom w) = true) ->
  exchange (step e w) = exchange w /\
  requests (step e w) = requests w /\
  API_KEY (step e w) = API_KEY w /\
  generateButton_disabled (dom (step e w)) = generateButton_disabled (dom w).
Proof.
  intros Hin Hclick. destruct e; try discriminate Hin; cbn [step].
  - rewrite (Hclick eq_refl). auto.
  - unfold handleDrop. destruct dataTransfer as [files|]; [|auto].
    destruct (Nat.ltb 0 (List.length files)); [|auto].
    unfold seq.
    destruct (handleFiles_frame files (with_dom (set_files files) w))
      as (Hd & Hx & Hr & Hk).
    rewrite Hd, Hx, Hr, Hk. auto.
  - destruct files as [fs|]; [|auto].
    unfold seq, handleFileSelect.
    destruct (handleFiles_frame fs (with_dom (set_files fs) w))
      as (Hd & Hx & Hr & Hk).
    rewrite Hd, Hx, Hr, Hk. auto.
  - auto.
  - destruct (nth_error (previewReaders w) reader); auto.
Qed.

(** While the trigger is disabled, intake events change nothing of the
    exchange. *)
Lemma intake_run_frame (events : list Event) :
  forall w : World,
    forallb intake_event events = true ->
    generateButton_disabled (dom w) = true ->
    exchange (run events w) = exchange w /\
    requests (run events w) = requests w /\
    API_KEY (run events w) = API_KEY w /\
    generateButton_disabled (dom (run events w)) = true.
Proof.
  induction events as [|e events IH]; intros w Hall Hdis; [cbn; auto|].
  cbn in Hall. apply andb_true_iff in Hall as [He Hes].
  destruct (intake_frame e w He (fun _ => Hdis)) as (Hx & Hr & Hk & Hd).
  change (run (e :: events) w) with (run events (step e w)).
  rewrite Hdis in Hd.
  destruct (IH (step e w) Hes Hd) as (Hx' & Hr' & Hk' & Hd').
  rewrite Hx', Hr', Hk', Hd', Hx, Hr, Hk. auto.
Qed.

Lemma run_app (es1 es2 : list Event) (w : World) :
  run (es1 ++ es2) w = run es2 (run es1 w).
Proof. unfold run. apply fold_left_app. Qed.

(** [suspended_disabled] is an invariant of every history of the page. *)
Lemma step_suspended_disabled (e : Event) (w : World) :
  suspended_disabled w -> suspended_disabled (step e w).
Proof.
  unfold suspended_disabled. intros Inv.
  destruct e; cbn [step].
  - destruct (generateButton_disabled (dom w)) eqn:Hd; [rewrite Hd; auto|].
    unfold runRedesigner.
    destruct (negb (Str.truthy_opt (API_KEY w))); [cbn; rewrite Hd; auto|].
    destruct (nth_error (fileInput_files (dom w)) 0);
      [|cbn; rewrite Hd; auto].
    destruct (negb (Str.truthy (stylePromptInput_value (dom w))));
      [cbn; rewrite Hd; auto|].
    reflexivity.
  - destruct (intake_frame (Drop dataTransfer) w eq_refl) as (Hx & _ & _ & Hd);
      [discriminate|].
    cbn [step] in Hx, Hd. rewrite Hx, Hd. exact Inv.
  - destruct (intake_frame (Change files) w eq_refl) as (Hx & _ & _ & Hd);
      [discriminate|].
    cbn [step] in Hx, Hd. rewrite Hx, Hd. exact Inv.
  - exact Inv.
  - destruct (nth_error (previewReaders w) reader); exact Inv.
  - destruct (exchange w) eqn:Hx; cbv iota; try (rewrite Hx; exact Inv).
    intros _. cbn. apply Inv. discriminate.
  - destruct (exchange w) eqn:Hx; cbv iota; try (rewrite Hx; exact Inv).
    intros Hne. exfalso. apply Hne.
    unfold runRedesigner_settled.
    destruct (try_after_call settled stylePrompt w) as [w1 [err|]];
      reflexivity.
  - destruct (exchange w) eqn:Hx; cbv iota; try (rewrite Hx; exact Inv).
    intros _. cbn. apply Inv. discriminate.
Qed.

Lemma run_suspended_disabled (events : list Event) :
  forall w, suspended_disabled w -> suspended_disabled (run events w).
Proof.
  induction events as [|e events IH]; intros w Inv; [exact Inv|].
  change (run (e :: events) w) with (run events (step e w)).
  apply IH, step_suspended_disabled, Inv.
Qed.

Lemma boot_suspended_disabled (key : option string) (d : Dom) :
  suspended_disabled (boot key d).
Proof. intros H. exfalso. apply H. reflexivity. Qed.

End Frames.

(** ** The extraction rule *)

Section Extraction.

Lemma scan_skips (pre rest : list Part) :
  Forall (fun q => inlineData q = None) pre ->
  scan (pre ++ rest) = scan rest.
Proof.
  induction 1 as [|q pre Hq _ IH]; [reflexivity|].
  cbn [app scan]. rewrite Hq. exact IH.
Qed.

Lemma response_parts_of (ps : list Part) :
  response_parts (response_of ps) = inr ps.
Proof. reflexivity. Qed.

(** The handler looks at a response only through its parts, and at the
    parts only through [scan]. *)
Lemma settled_by_scan (r1 r2 : GenerateContentResponse)
  (ps1 ps2 : list Part) (stylePrompt : string) (w : World) :
  response_parts r1 = inr ps1 ->
  response_parts r2 = inr ps2 ->
  scan ps1 = scan ps2 ->
  runRedesigner_settled (Fulfilled r1) stylePrompt w =
  runRedesigner_settled (Fulfilled r2) stylePrompt w.
Proof.
  intros H1 H2 Hs. unfold runRedesigner_settled, try_after_call.
  rewrite H1, H2, Hs. reflexivity.
Qed.

End Extraction.

(** C1. The scan of the response parts returns the data of the first part
    that carries inline data: parts without inline data before it are
    skipped, and whatever follows it (further image parts included) has no
    influence, neither on the extracted data nor on what the exchange does
    with the page. *)
Theorem first_inline_part_wins
  (pre post : list Part) (p : Part) (b : Blob)
  (response : GenerateContentResponse) (stylePrompt : string) (w : World) :
  Forall (fun q => inlineData q = None) pre ->
  inlineData p = Some b ->
  response_parts response = inr (pre ++ p :: post) ->
  scan (pre ++ p :: post) = data b /\
  runRedesigner_settled (Fulfilled response) stylePrompt w =
  runRedesigner_settled (Fulfilled (response_of [p])) stylePrompt w.
Proof.
  intros Hpre Hp Hr.
  assert (Hscan : scan (pre ++ p :: post) = data b).
  { rewrite (scan_skips pre (p :: post) Hpre). cbn [scan]. rewrite Hp.
    reflexivity. }
  split; [exact Hscan|].
  apply (settled_by_scan response (response_of [p]) (pre ++ p :: post) [p]
           stylePrompt w Hr (response_parts_of [p])).
  rewrite Hscan. cbn [scan]. rewrite Hp. reflexivity.
Qed.

(** The first inline part at index 2, after two text parts and before a
    second image part. *)
Lemma first_inline_part_wins_witness :
  let t1 := {| text := Some "Here is"; inlineData := None |} in
  let t2 := {| text := Some "your room"; inlineData := None |} in
  let b := {| data := Some "QUJD"; mimeType := Some "image/png" |} in
  let img := {| text := None; inlineData := Some b |} in
  let later :=
    {| text := None;
       inlineData := Some {| data := Some "WFla";
                             mimeType := Some "image/png" |} |} in
  let w := suspend (AwaitingResponse "boho") (boot (Some "k")
    {| fileInput_files := []; imagePreviewContainer := [];
       stylePromptInput_value := "boho"; generateButton_disabled := true;
       outputImage_src := ""; outputImage_alt := "";
       outputImage_display := "none";
       outputPlaceholder_textContent := "";
       outputPlaceholder_display := "block" |}) in
  scan ([t1; t2] ++ img :: [later]) = Some "QUJD" /\
  runRedesigner_settled
    (Fulfilled (response_of ([t1; t2] ++ img :: [later]))) "boho" w =
  runRedesigner_settled (Fulfilled (response_of [img])) "boho" w.
Proof.
  intros t1 t2 b img later w.
  apply (first_inline_part_wins [t1; t2] [later] img b
           (response_of ([t1; t2] ++ img :: [later])) "boho" w).
  - repeat constructor.
  - reflexivity.
  - reflexivity.
Defined.

(** ** The preconditions *)

Section Preconditions.

Lemma truthy_eqb (s : string) : Str.truthy s = negb (String.eqb s "").
Proof. destruct s; reflexivity. Qed.

Lemma nth_error_0_present (w : World) :
  image_present w = false <-> nth_error (fileInput_files (dom w)) 0 = None.
Proof.
  unfold image_present. destruct (fileInput_files (dom w)); cbn;
    split; congruence.
Qed.

(** No click, no call: from an idle exchange, events other than a click
    issue no request. *)
Lemma idle_without_click (events : list Event) :
  forall w : World,
    exchange w = Idle ->
    forallb (fun e => negb (is_click e)) events = true ->
    exchange (run events w) = Idle /\
    requests (run events w) = requests w.
Proof.
  induction events as [|e events IH]; intros w Hidle Hno; [cbn; auto|].
  cbn in Hno. apply andb_true_iff in Hno as [He Hes].
  change (run (e :: events) w) with (run events (step e w)).
  assert (Hstep : exchange (step e w) = Idle /\
                  requests (step e w) = requests w).
  { destruct (intake_event e) eqn:Hin.
    - destruct (intake_frame e w Hin) as (Hx & Hr & _).
      + intros ->. discriminate He.
      + rewrite Hx, Hr. auto.
    - destruct e; try discriminate Hin; cbn [step]; rewrite Hidle; auto. }
  destruct Hstep as [Hx Hr].
  destruct (IH (step e w) Hx Hes) as [Hx' Hr'].
  rewrite Hx', Hr', Hr. auto.
Qed.

Lemma runRedesigner_violation (w : World) (v : Violation) :
  first_violation w = Some v ->
  runRedesigner w = alert (violation_alert v) w.
Proof.
  unfold first_violation, runRedesigner, credential_configured.
  destruct (negb (Str.truthy_opt (API_KEY w))).
  - intros [= <-]. reflexivity.
  - destruct (image_present w) eqn:Himg; cbn [negb].
    + unfold image_present in Himg.
      destruct (fileInput_files (dom w)) as [|f fs] eqn:Hfs;
        [discriminate|].
      cbn [nth_error]. unfold style_nonempty.
      rewrite truthy_eqb.
      destruct (negb (negb (stylePromptInput_value (dom w) =? "")%string));
        [|discriminate].
      intros [= <-]. reflexivity.
    + apply nth_error_0_present in Himg. rewrite Himg.
      intros [= <-]. reflexivity.
Qed.

Lemma runRedesigner_passes (w : World) :
  first_violation w = None ->
  exists file,
    nth_error (fileInput_files (dom w)) 0 = Some file /\
    exchange (runRedesigner w)
      = AwaitingRead file (stylePromptInput_value (dom w)) /\
    requests (runRedesigner w) = requests w /\
    API_KEY (runRedesigner w) = API_KEY w /\
    generateButton_disabled (dom (runRedesigner w)) = true.
Proof.
  unfold first_violation, runRedesigner, credential_configured.
  destruct (negb (Str.truthy_opt (API_KEY w))); [discriminate|].
  unfold image_present.
  destruct (fileInput_files (dom w)) as [|f fs]; [discriminate|].
  cbn [negb nth_error]. unfold style_nonempty. rewrite truthy_eqb.
  destruct (negb (negb (stylePromptInput_value (dom w) =? "")%string));
    [discriminate|].
  intros _. exists f. repeat split.
Qed.

End Preconditions.

(** C2. The operation checks credential, image and style in that order and
    stops at the first one violated: the click raises the alert of that
    precondition and changes nothing else on the page, so no request is
    issued by it, nor by whatever follows that is not a further click. *)
Theorem violated_precondition_alerts
  (w : World) (v : Violation) (later : list Event) :
  generateButton_disabled (dom w) = false ->
  exchange w = Idle ->
  first_violation w = Some v ->
  forallb (fun e => negb (is_click e)) later = true ->
  step Click w = alert (violation_alert v) w /\
  alerts (step Click w) = alerts w ++ [violation_alert v] /\
  dom (step Click w) = dom w /\
  requests (step Click w) = requests w /\
  exchange (step Click w) = Idle /\
  requests (run later (step Click w)) = requests w.
Proof.
  intros Hen Hidle Hv Hlater.
  assert (Hstep : step Click w = alert (violation_alert v) w).
  { cbn [step]. rewrite Hen. apply runRedesigner_violation, Hv. }
  rewrite Hstep. repeat split; try exact Hidle.
  destruct (idle_without_click later (alert (violation_alert v) w) Hidle Hlater)
    as [_ Hr].
  exact Hr.
Qed.

(** No credential and an empty style: the credential's alert, and only
    it. *)
Lemma violated_precondition_alerts_witness :
  let f := {| type := "image/png"; bytes := [] |} in
  let w := boot None
    {| fileInput_files := [f]; imagePreviewContainer := [];
       stylePromptInput_value := ""; generateButton_disabled := false;
       outputImage_src := ""; outputImage_alt := "";
       outputImage_display := "none";
       outputPlaceholder_textContent := "";
       outputPlaceholder_display := "block" |} in
  let later := [Input "boho"; ReadLoadEnd "data:,"; Settle (Rejected (Error "x"))] in
  step Click w
    = alert "API key is not configured. Please set the environment variable." w /\
  alerts (step Click w)
    = ["API key is not configured. Please set the environment variable."] /\
  dom (step Click w) = dom w /\
  requests (step Click w) = [] /\
  exchange (step Click w) = Idle /\
  requests (run later (step Click w)) = [].
Proof.
  intros f w later.
  apply (violated_precondition_alerts w NoCredential later);
    reflexivity.
Defined.

(** ** The shape of the request *)

Section RequestShape.

Lemma built_request_shape (file : File) (stylePrompt result : string) :
  request_shape
    (generateContent_request (fileToGenerativePart file result) stylePrompt).
Proof.
  unfold request_shape, generateContent_request, fileToGenerativePart,
    textPart.
  cbn [contents_parts]. eexists. eexists. reflexivity.
Qed.

Lemma runRedesigner_requests (w : World) :
  requests (runRedesigner w) = requests w.
Proof. unfold runRedesigner. crush_handler. Qed.

Lemma runRedesigner_settled_requests (settled : Settlement)
  (stylePrompt : string) (w : World) :
  requests (runRedesigner_settled settled stylePrompt w) = requests w.
Proof.
  unfold runRedesigner_settled, try_after_call.
  destruct settled as [error|response]; [reflexivity|].
  destruct (response_parts response) as [error|ps]; [reflexivity|].
  destruct (scan ps) as [base64Image|]; [|reflexivity].
  destruct (Str.truthy base64Image); reflexivity.
Qed.

(** Every event either leaves the requests alone or appends the request
    built from a file read. *)
Lemma step_requests (e : Event) (w : World) :
  requests (step e w) = requests w \/
  exists file stylePrompt result,
    e = ReadLoadEnd result /\
    exchange w = AwaitingRead file stylePrompt /\
    requests (step e w) =
      requests w ++
      [generateContent_request (fileToGenerativePart file result)
         stylePrompt].
Proof.
  destruct e.
  - left. cbn [step]. destruct (generateButton_disabled (dom w));
      [reflexivity | apply runRedesigner_requests].
  - left. cbn [step]. unfold handleDrop.
    destruct dataTransfer as [files|]; [|reflexivity].
    destruct (Nat.ltb 0 (List.length files)); [|reflexivity].
    unfold seq.
    destruct (handleFiles_frame files (with_dom (set_files files) w))
      as (_ & _ & Hr & _).
    rewrite Hr. reflexivity.
  - left. cbn [step]. destruct files as [fs|]; [|reflexivity].
    unfold seq, handleFileSelect.
    destruct (handleFiles_frame fs (with_dom (set_files fs) w))
      as (_ & _ & Hr & _).
    rewrite Hr. reflexivity.
  - left. reflexivity.
  - left. cbn [step]. destruct (nth_error (previewReaders w) reader);
      reflexivity.
  - cbn [step]. destruct (exchange w) as [|file stylePrompt| |] eqn:Hx;
      [left; reflexivity | | left; reflexivity | left; reflexivity].
    right. exists file, stylePrompt, result. repeat split.
  - left. cbn [step]. destruct (exchange w); try reflexivity.
    apply runRedesigner_settled_requests.
  - left. cbn [step]. destruct (exchange w); reflexivity.
Qed.

End RequestShape.

(** C3. Every request the page has issued, after any history of events
    from the loaded page, holds exactly two parts: first a part with inline
    data and no text (the image), then a part with text and no inline data
    (the instruction). *)
Theorem every_request_image_then_text
  (key : option string) (d : Dom) (events : list Event) :
  Forall request_shape (requests (run events (boot key d))).
Proof.
  induction events as [|e events IH] using rev_ind.
  - constructor.
  - rewrite run_app. change (run [e] ?w) with (step e w).
    destruct (step_requests e (run events (boot key d)))
      as [Hsame | (file & stylePrompt & result & _ & _ & Happ)].
    + rewrite Hsame. exact IH.
    + rewrite Happ. apply Forall_app. split; [exact IH|].
      constructor; [apply built_request_shape | constructor].
Qed.

(** ** The trigger *)

Section Trigger.

Lemma settled_enables (settled : Settlement) (stylePrompt : string)
  (w : World) :
  generateButton_disabled
    (dom (runRedesigner_settled settled stylePrompt w)) = false /\
  exchange (runRedesigner_settled settled stylePrompt w) = Idle.
Proof.
  unfold runRedesigner_settled.
  destruct (try_after_call settled stylePrompt w) as [w1 [err|]];
    split; reflexivity.
Qed.

End Trigger.

(** The executions whose file read succeeds: the click disables the
    trigger; it stays disabled while the file is read, when the request is
    sent and for as long as the remote call is outstanding, whatever the
    user does meanwhile; and when the call settles, fulfilled or rejected,
    with or without an image, the operation is over and the trigger is
    enabled again. *)
Lemma trigger_disabled_until_settled
  (w : World) (meanwhile1 meanwhile2 : list Event) (result : string)
  (settled : Settlement) :
  first_violation w = None ->
  generateButton_disabled (dom w) = false ->
  forallb intake_event meanwhile1 = true ->
  forallb intake_event meanwhile2 = true ->
  let w1 := step Click w in
  let w2 := run meanwhile1 w1 in
  let w3 := step (ReadLoadEnd result) w2 in
  let w4 := run meanwhile2 w3 in
  let w5 := step (Settle settled) w4 in
  generateButton_disabled (dom w1) = true /\
  generateButton_disabled (dom w2) = true /\
  (exists r, requests w3 = requests w ++ [r]) /\
  exchange w3 = AwaitingResponse (stylePromptInput_value (dom w)) /\
  generateButton_disabled (dom w3) = true /\
  exchange w4 = AwaitingResponse (stylePromptInput_value (dom w)) /\
  requests w4 = requests w3 /\
  generateButton_disabled (dom w4) = true /\
  exchange w5 = Idle /\
  generateButton_disabled (dom w5) = false.
Proof.
  intros Hok Hen Hm1 Hm2 w1 w2 w3 w4 w5.
  destruct (runRedesigner_passes w Hok) as (file & _ & Hx1 & Hr1 & _ & Hd1).
  assert (Hw1 : w1 = runRedesigner w).
  { unfold w1. cbn [step]. rewrite Hen. reflexivity. }
  rewrite <- Hw1 in Hx1, Hr1, Hd1.
  destruct (intake_run_frame meanwhile1 w1 Hm1 Hd1) as (Hx2 & Hr2 & _ & Hd2).
  fold w2 in Hx2, Hr2, Hd2. rewrite Hx1 in Hx2. rewrite Hr1 in Hr2.
  assert (Hw3 : w3 = runRedesigner_read file (stylePromptInput_value (dom w))
                       result w2).
  { unfold w3. cbn [step]. rewrite Hx2. reflexivity. }
  assert (Hx3 : exchange w3 = AwaitingResponse (stylePromptInput_value (dom w)))
    by (rewrite Hw3; reflexivity).
  assert (Hd3 : generateButton_disabled (dom w3) = true)
    by (rewrite Hw3; exact Hd2).
  destruct (intake_run_frame meanwhile2 w3 Hm2 Hd3) as (Hx4 & Hr4 & _ & Hd4).
  fold w4 in Hx4, Hr4, Hd4. rewrite Hx3 in Hx4.
  assert (Hw5 : w5 = runRedesigner_settled settled
                       (stylePromptInput_value (dom w)) w4).
  { unfold w5. cbn [step]. rewrite Hx4. reflexivity. }
  destruct (settled_enables settled (stylePromptInput_value (dom w)) w4)
    as [Hd5 Hx5].
  rewrite <- Hw5 in Hd5, Hx5.
  repeat split; try assumption.
  eexists. rewrite Hw3. unfold runRedesigner_read, seq, suspend, send.
  cbn [requests]. rewrite Hr2. reflexivity.
Qed.

Lemma trigger_disabled_until_settled_witness :
  let f := {| type := "image/png"; bytes := [Byte.x89; Byte.x50] |} in
  let w := boot (Some "key")
    {| fileInput_files := [f]; imagePreviewContainer := [];
       stylePromptInput_value := "boho"; generateButton_disabled := false;
       outputImage_src := ""; outputImage_alt := "";
       outputImage_display := "none";
       outputPlaceholder_textContent := "";
       outputPlaceholder_display := "block" |} in
  let w1 := step Click w in
  let w2 := run [Click; Input "rustic"] w1 in
  let w3 := step (ReadLoadEnd (dataURL f)) w2 in
  let w4 := run [Drop (Some [f]); PreviewLoadEnd 0 (dataURL f); Click] w3 in
  let w5 := step (Settle (Rejected (Error "Failed to fetch"))) w4 in
  generateButton_disabled (dom w1) = true /\
  generateButton_disabled (dom w2) = true /\
  (exists r, requests w3 = requests w ++ [r]) /\
  exchange w3 = AwaitingResponse "boho" /\
  generateButton_disabled (dom w3) = true /\
  exchange w4 = AwaitingResponse "boho" /\
  requests w4 = requests w3 /\
  generateButton_disabled (dom w4) = true /\
  exchange w5 = Idle /\
  generateButton_disabled (dom w5) = false.
Proof.
  intros f w.
  apply (trigger_disabled_until_settled w
           [Click; Input "rustic"]
           [Drop (Some [f]); PreviewLoadEnd 0 (dataURL f); Click]
           (dataURL f) (Rejected (Error "Failed to fetch")));
    reflexivity.
Defined.

Section FailedRead.

Lemma step_read_failed (file : File) (stylePrompt : string) (w : World) :
  exchange w = AwaitingRead file stylePrompt ->
  step ReadFailed w = suspend Stalled w.
Proof. intros Hx. cbn [step]. rewrite Hx. reflexivity. Qed.

(** A stalled exchange stays stalled, whatever happens on the page. *)
Lemma stalled_forever (later : list Event) :
  forall w : World,
    exchange w = Stalled ->
    generateButton_disabled (dom w) = true ->
    exchange (run later w) = Stalled /\
    requests (run later w) = requests w /\
    generateButton_disabled (dom (run later w)) = true.
Proof.
  induction later as [|e later IH]; intros w Hx Hdis; [cbn; auto|].
  change (run (e :: later) w) with (run later (step e w)).
  assert (Hstep : exchange (step e w) = Stalled /\
                  requests (step e w) = requests w /\
                  generateButton_disabled (dom (step e w)) = true).
  { destruct (intake_event e) eqn:Hin.
    - destruct (intake_frame e w Hin (fun _ => Hdis)) as (Hx' & Hr' & _ & Hd').
      rewrite Hx', Hr', Hd'. auto.
    - destruct e; try discriminate Hin; cbn [step]; rewrite Hx; auto. }
  destruct Hstep as (Hx1 & Hr1 & Hd1).
  destruct (IH (step e w) Hx1 Hd1) as (Hx2 & Hr2 & Hd2).
  rewrite Hx2, Hr2, Hd2, Hr1. auto.
Qed.

End FailedRead.

(** C4. The trigger is not re-enabled on every failure path. When the read
    of the selected file fails after a click that passed the
    preconditions, the exchange stalls before any request is sent, and
    from then on no event of the page, of whatever kind and in whatever
    number, enables the trigger again or sends a request: [finally] never
    runs. *)
Theorem failed_read_leaves_trigger_disabled
  (w : World) (meanwhile later : list Event) :
  first_violation w = None ->
  generateButton_disabled (dom w) = false ->
  forallb intake_event meanwhile = true ->
  let w2 := step ReadFailed (run meanwhile (step Click w)) in
  exchange w2 = Stalled /\
  requests w2 = requests w /\
  generateButton_disabled (dom w2) = true /\
  exchange (run later w2) = Stalled /\
  requests (run later w2) = requests w /\
  generateButton_disabled (dom (run later w2)) = true.
Proof.
  intros Hok Hen Hm w2.
  destruct (runRedesigner_passes w Hok) as (file & _ & Hx1 & Hr1 & _ & Hd1).
  assert (Hw1 : step Click w = runRedesigner w).
  { cbn [step]. rewrite Hen. reflexivity. }
  rewrite <- Hw1 in Hx1, Hr1, Hd1.
  destruct (intake_run_frame meanwhile (step Click w) Hm Hd1)
    as (Hx & Hr & _ & Hd).
  rewrite Hx1 in Hx. rewrite Hr1 in Hr.
  assert (Hw2 : w2 = suspend Stalled (run meanwhile (step Click w))).
  { unfold w2. apply (step_read_failed file (stylePromptInput_value (dom w))).
    exact Hx. }
  assert (Hx2 : exchange w2 = Stalled) by (rewrite Hw2; reflexivity).
  assert (Hr2 : requests w2 = requests w) by (rewrite Hw2; exact Hr).
  assert (Hd2 : generateButton_disabled (dom w2) = true)
    by (rewrite Hw2; exact Hd).
  destruct (stalled_forever later w2 Hx2 Hd2) as (Hx3 & Hr3 & Hd3).
  rewrite Hr2 in Hr3. repeat split; assumption.
Qed.

(** The read of the selected file fails; the user then clicks again, picks
    the file anew and clicks once more. *)
Lemma failed_read_leaves_trigger_disabled_witness :
  let f := {| type := "image/png"; bytes := [Byte.x89; Byte.x50] |} in
  let w := boot (Some "key")
    {| fileInput_files := [f]; imagePreviewContainer := [];
       stylePromptInput_value := "boho"; generateButton_disabled := false;
       outputImage_src := ""; outputImage_alt := "";
       outputImage_display := "none";
       outputPlaceholder_textContent := "";
       outputPlaceholder_display := "block" |} in
  let later :=
    [Click; Change (Some [f]); PreviewLoadEnd 0 (dataURL f); Input "loft";
     Click; ReadLoadEnd (dataURL f); Settle (Rejected (Error "x"));
     ReadFailed; Click] in
  let w2 := step ReadFailed (run [Input "rustic"] (step Click w)) in
  exchange w2 = Stalled /\
  requests w2 = [] /\
  generateButton_disabled (dom w2) = true /\
  exchange (run later w2) = Stalled /\
  requests (run later w2) = [] /\
  generateButton_disabled (dom (run later w2)) = true.
Proof.
  intros f w later.
  apply (failed_read_leaves_trigger_disabled w [Input "rustic"] later);
    reflexivity.
Defined.

(** ** The output surface *)

Section Output.

(** What the last stage does when the settlement yields an image. *)
Lemma settled_success (settled : Settlement) (stylePrompt : string)
  (w : World) :
  succeeded settled = true ->
  exists response ps base64Image,
    settled = Fulfilled response /\
    response_parts response = inr ps /\
    scan ps = Some base64Image /\
    Str.truthy base64Image = true /\
    runRedesigner_settled settled stylePrompt w =
      suspend Idle (finally_block (display_result base64Image stylePrompt w)).
Proof.
  unfold succeeded, runRedesigner_settled, try_after_call.
  destruct settled as [error|response]; [discriminate|].
  destruct (response_parts response) as [error|ps] eqn:Hps; [discriminate|].
  destruct (scan ps) as [base64Image|] eqn:Hscan; [|discriminate].
  cbn [Str.truthy_opt]. intros Ht. rewrite Ht.
  exists response, ps, base64Image. repeat split; assumption.
Qed.

(** What the last stage does when it does not. *)
Lemma settled_failure (settled : Settlement) (stylePrompt : string)
  (w : World) :
  succeeded settled = false ->
  exists error,
    runRedesigner_settled settled stylePrompt w =
      suspend Idle (finally_block (catch_block error w)) /\
    (forall e, settled = Rejected e -> error = e) /\
    (forall response ps,
        settled = Fulfilled response ->
        response_parts response = inr ps ->
        error = Error no_image_message).
Proof.
  unfold succeeded, runRedesigner_settled, try_after_call.
  destruct settled as [error|response].
  - intros _. exists error. repeat split; congruence.
  - destruct (response_parts response) as [error|ps] eqn:Hps.
    + intros _. exists error. repeat split; congruence.
    + destruct (scan ps) as [base64Image|] eqn:Hscan.
      * cbn [Str.truthy_opt]. intros Ht. rewrite Ht.
        exists (Error no_image_message). repeat split; congruence.
      * intros _. exists (Error no_image_message).
        repeat split; congruence.
Qed.

Lemma catch_surfaces (error : JsError) (w : World) :
  failure_surfaced (message error)
    (suspend Idle (finally_block (catch_block error w))).
Proof. repeat split. Qed.

Lemma step_settle (settled : Settlement) (stylePrompt : string)
  (w : World) :
  exchange w = AwaitingResponse stylePrompt ->
  step (Settle settled) w = runRedesigner_settled settled stylePrompt w.
Proof. intros Hx. cbn [step]. rewrite Hx. reflexivity. Qed.

End Output.

(** C5. When the exchange completes, exactly one of the output image and
    the placeholder is visible: after a success the image is shown and the
    placeholder hidden, after a failure of the remote call (rejection, or a
    response without usable image data) the placeholder is shown and the
    image hidden. *)
Theorem exactly_one_of_image_and_placeholder
  (w : World) (stylePrompt : string) (settled : Settlement) :
  exchange w = AwaitingResponse stylePrompt ->
  let w' := step (Settle settled) w in
  exchange w' = Idle /\
  xorb (visible (outputImage_display (dom w')))
       (visible (outputPlaceholder_display (dom w'))) = true /\
  (succeeded settled = true ->
     outputImage_display (dom w') = "block" /\
     outputPlaceholder_display (dom w') = "none") /\
  (succeeded settled = false ->
     outputPlaceholder_display (dom w') = "block" /\
     outputImage_display (dom w') = "none").
Proof.
  intros Hx w'. unfold w'. rewrite (step_settle settled stylePrompt w Hx).
  destruct (succeeded settled) eqn:Hs.
  - destruct (settled_success settled stylePrompt w Hs)
      as (response & ps & d & _ & _ & _ & _ & Hrun).
    rewrite Hrun. repeat split; discriminate.
  - destruct (settled_failure settled stylePrompt w Hs)
      as (error & Hrun & _).
    rewrite Hrun. repeat split; discriminate.
Qed.

Lemma exactly_one_of_image_and_placeholder_witness :
  let w := suspend (AwaitingResponse "boho") (boot (Some "key")
    {| fileInput_files := []; imagePreviewContainer := [];
       stylePromptInput_value := "boho"; generateButton_disabled := true;
       outputImage_src := "data:image/jpeg;base64,QUJD";
       outputImage_alt := "";
       outputImage_display := "none";
       outputPlaceholder_textContent := "";
       outputPlaceholder_display := "block" |}) in
  let settled := Fulfilled (response_of [ {| text := Some "no image";
                                             inlineData := None |} ]) in
  let w' := step (Settle settled) w in
  exchange w' = Idle /\
  xorb (visible (outputImage_display (dom w')))
       (visible (outputPlaceholder_display (dom w'))) = true /\
  (succeeded settled = true ->
     outputImage_display (dom w') = "block" /\
     outputPlaceholder_display (dom w') = "none") /\
  (succeeded settled = false ->
     outputPlaceholder_display (dom w') = "block" /\
     outputImage_display (dom w') = "none").
Proof.
  intros w settled.
  apply (exactly_one_of_image_and_placeholder w "boho" settled).
  reflexivity.
Defined.

(** C6, as stated, fails for the missing credential: the click raises an
    alert and returns before it touches the output surface, so no message
    of any wording is surfaced there. *)
Lemma missing_credential_not_surfaced :
  let w := boot None
    {| fileInput_files := [ {| type := "image/png"; bytes := [] |} ];
       imagePreviewContainer := [];
       stylePromptInput_value := "boho"; generateButton_disabled := false;
       outputImage_src := ""; outputImage_alt := "";
       outputImage_display := "none";
       outputPlaceholder_textContent :=
         "Your redesigned room will appear here.";
       outputPlaceholder_display := "block" |} in
  first_violation w = Some NoCredential /\
  alerts (step Click w)
    = ["API key is not configured. Please set the environment variable."] /\
  dom (step Click w) = dom w /\
  forall msg : string, ~ failure_surfaced msg (step Click w).
Proof.
  intros w. repeat split.
  intros msg [Htext _]. cbn in Htext. discriminate Htext.
Qed.

(** C6, amended. Every failure of the remote call (a rejection, a response
    that cannot be read, a response without usable image data) puts its
    message into the placeholder, shows the placeholder and hides the
    output image; a missing credential raises an alert and leaves the
    output surface as it is. *)
Theorem remote_failure_surfaced
  (w : World) (stylePrompt : string) (settled : Settlement) (w0 : World) :
  exchange w = AwaitingResponse stylePrompt ->
  succeeded settled = false ->
  (exists msg : string,
      failure_surfaced msg (step (Settle settled) w) /\
      (forall e, settled = Rejected e -> msg = message e) /\
      (forall response ps,
          settled = Fulfilled response ->
          response_parts response = inr ps ->
          msg = no_image_message)) /\
  (credential_configured w0 = false ->
   generateButton_disabled (dom w0) = false ->
   step Click w0 = alert (violation_alert NoCredential) w0 /\
   dom (step Click w0) = dom w0).
Proof.
  intros Hx Hs. split.
  - rewrite (step_settle settled stylePrompt w Hx).
    destruct (settled_failure settled stylePrompt w Hs)
      as (error & Hrun & Hrej & Hful).
    exists (message error). rewrite Hrun. split; [apply catch_surfaces|].
    split.
    + intros e He. rewrite (Hrej e He). reflexivity.
    + intros response ps Hr Hps. rewrite (Hful response ps Hr Hps).
      reflexivity.
  - intros Hcred Hen.
    assert (Hv : first_violation w0 = Some NoCredential).
    { unfold first_violation. rewrite Hcred. reflexivity. }
    cbn [step]. rewrite Hen, (runRedesigner_violation w0 NoCredential Hv).
    split; reflexivity.
Qed.

Lemma remote_failure_surfaced_witness :
  let d :=
    {| fileInput_files := []; imagePreviewContainer := [];
       stylePromptInput_value := "boho"; generateButton_disabled := true;
       outputImage_src := "data:image/jpeg;base64,QUJD";
       outputImage_alt := "Redesigned room in the style of loft";
       outputImage_display := "block";
       outputPlaceholder_textContent := "";
       outputPlaceholder_display := "none" |} in
  let w := suspend (AwaitingResponse "boho") (boot (Some "key") d) in
  let w0 := boot None (set_disabled false d) in
  let settled := Rejected (Error "Failed to fetch") in
  (exists msg : string,
      failure_surfaced msg (step (Settle settled) w) /\
      (forall e, settled = Rejected e -> msg = message e) /\
      (forall response ps,
          settled = Fulfilled response ->
          response_parts response = inr ps ->
          msg = no_image_message)) /\
  (credential_configured w0 = false ->
   generateButton_disabled (dom w0) = false ->
   step Click w0 = alert (violation_alert NoCredential) w0 /\
   dom (step Click w0) = dom w0).
Proof.
  intros d w w0 settled.
  apply (remote_failure_surfaced w "boho" settled w0); reflexivity.
Defined.

(** C9. On every successful exchange the output image gets the source
    [data:image/jpeg;base64,] followed by the extracted data, whatever MIME
    type the inline-data part of the response declares. *)
Theorem output_src_hardcodes_jpeg
  (w : World) (stylePrompt : string) (response : GenerateContentResponse)
  (pre post : list Part) (p : Part) (base64Image : string)
  (declared : option string) :
  exchange w = AwaitingResponse stylePrompt ->
  response_parts response = inr (pre ++ p :: post) ->
  Forall (fun q => inlineData q = None) pre ->
  inlineData p = Some {| data := Some base64Image; mimeType := declared |} ->
  Str.truthy base64Image = true ->
  let w' := step (Settle (Fulfilled response)) w in
  succeeded (Fulfilled response) = true /\
  outputImage_src (dom w') = ("data:image/jpeg;base64," ++ base64Image)%string /\
  outputImage_display (dom w') = "block".
Proof.
  intros Hx Hr Hpre Hp Ht w'.
  assert (Hscan : scan (pre ++ p :: post) = Some base64Image).
  { rewrite (scan_skips pre (p :: post) Hpre). cbn [scan]. rewrite Hp.
    reflexivity. }
  assert (Hs : succeeded (Fulfilled response) = true).
  { unfold succeeded. rewrite Hr, Hscan. exact Ht. }
  split; [exact Hs|].
  unfold w'. rewrite (step_settle (Fulfilled response) stylePrompt w Hx).
  destruct (settled_success (Fulfilled response) stylePrompt w Hs)
    as (r & ps & d & Heq & Hps & Hd & _ & Hrun).
  injection Heq as <-. rewrite Hr in Hps. injection Hps as <-.
  rewrite Hscan in Hd. injection Hd as <-.
  rewrite Hrun. split; reflexivity.
Qed.

(** A response whose image part declares [image/png]. *)
Lemma output_src_hardcodes_jpeg_witness :
  let w := suspend (AwaitingResponse "boho") (boot (Some "key")
    {| fileInput_files := []; imagePreviewContainer := [];
       stylePromptInput_value := "boho"; generateButton_disabled := true;
       outputImage_src := ""; outputImage_alt := "";
       outputImage_display := "none";
       outputPlaceholder_textContent := "";
       outputPlaceholder_display := "block" |}) in
  let p := {| text := None;
              inlineData := Some {| data := Some "iVBORw0KGgo=";
                                    mimeType := Some "image/png" |} |} in
  let response := response_of [p] in
  let w' := step (Settle (Fulfilled response)) w in
  succeeded (Fulfilled response) = true /\
  outputImage_src (dom w') = "data:image/jpeg;base64,iVBORw0KGgo=" /\
  outputImage_display (dom w') = "block".
Proof.
  intros w p response.
  apply (output_src_hardcodes_jpeg w "boho" response [] [] p
           "iVBORw0KGgo=" (Some "image/png")).
  - reflexivity.
  - reflexivity.
  - constructor.
  - reflexivity.
  - reflexivity.
Defined.

(** C10. When the first part with inline data carries the empty string as
    its data, the scan stops there and the failure path is taken: the
    placeholder shows the error message, the output image is hidden, and
    image parts further on are not looked at. *)
Theorem empty_first_image_is_failure
  (w : World) (stylePrompt : string) (response : GenerateContentResponse)
  (pre post : list Part) (p : Part) (declared : option string) :
  exchange w = AwaitingResponse stylePrompt ->
  response_parts response = inr (pre ++ p :: post) ->
  Forall (fun q => inlineData q = None) pre ->
  inlineData p = Some {| data := Some ""; mimeType := declared |} ->
  let w' := step (Settle (Fulfilled response)) w in
  scan (pre ++ p :: post) = Some "" /\
  succeeded (Fulfilled response) = false /\
  failure_surfaced no_image_message w' /\
  outputImage_src (dom w') = outputImage_src (dom w) /\
  exchange w' = Idle /\
  generateButton_disabled (dom w') = false.
Proof.
  intros Hx Hr Hpre Hp w'.
  assert (Hscan : scan (pre ++ p :: post) = Some "").
  { rewrite (scan_skips pre (p :: post) Hpre). cbn [scan]. rewrite Hp.
    reflexivity. }
  assert (Hs : succeeded (Fulfilled response) = false).
  { unfold succeeded. rewrite Hr, Hscan. reflexivity. }
  split; [exact Hscan|]. split; [exact Hs|].
  unfold w'. rewrite (step_settle (Fulfilled response) stylePrompt w Hx).
  destruct (settled_failure (Fulfilled response) stylePrompt w Hs)
    as (error & Hrun & _ & Hful).
  rewrite (Hful response (pre ++ p :: post) eq_refl Hr) in Hrun.
  rewrite Hrun. repeat split.
Qed.

(** An empty image part first, a full one second. *)
Lemma empty_first_image_is_failure_witness :
  let w := suspend (AwaitingResponse "boho") (boot (Some "key")
    {| fileInput_files := []; imagePreviewContainer := [];
       stylePromptInput_value := "boho"; generateButton_disabled := true;
       outputImage_src := ""; outputImage_alt := "";
       outputImage_display := "none";
       outputPlaceholder_textContent := "";
       outputPlaceholder_display := "block" |}) in
  let t := {| text := Some "Here you go"; inlineData := None |} in
  let p := {| text := None;
              inlineData := Some {| data := Some "";
                                    mimeType := Some "image/png" |} |} in
  let q := {| text := None;
              inlineData := Some {| data := Some "iVBORw0KGgo=";
                                    mimeType := Some "image/png" |} |} in
  let response := response_of ([t] ++ p :: [q]) in
  let w' := step (Settle (Fulfilled response)) w in
  scan ([t] ++ p :: [q]) = Some "" /\
  succeeded (Fulfilled response) = false /\
  failure_surfaced no_image_message w' /\
  outputImage_src (dom w') = outputImage_src (dom w) /\
  exchange w' = Idle /\
  generateButton_disabled (dom w') = false.
Proof.
  intros w t p q response.
  apply (empty_first_image_is_failure w "boho" response [t] [q] p
           (Some "image/png")).
  - reflexivity.
  - reflexivity.
  - repeat constructor.
  - reflexivity.
Defined.

(** ** The intake surface *)

Section Intake.

Lemma handleFiles_rejects (file : File) (rest : list File) (w : World) :
  is_image file = false ->
  handleFiles (file :: rest) w = alert rejection w.
Proof.
  unfold handleFiles, is_image. cbn [nth_error]. intros ->. reflexivity.
Qed.

Lemma handleFiles_accepts (file : File) (rest : list File) (w : World) :
  is_image file = true ->
  handleFiles (file :: rest) w = previewFile file w.
Proof.
  unfold handleFiles, is_image. cbn [nth_error]. intros ->. reflexivity.
Qed.

Lemma handleFiles_readers (files : list File) (w : World) :
  Forall (fun f => is_image f = true) (previewReaders w) ->
  Forall (fun f => is_image f = true) (previewReaders (handleFiles files w)) /\
  imagePreviewContainer (dom (handleFiles files w))
    = imagePreviewContainer (dom w).
Proof.
  intros Inv. unfold handleFiles.
  destruct (nth_error files 0) as [file|]; [|split; [exact Inv|reflexivity]].
  destruct (Str.startsWith (type file) "image/") eqn:Himg;
    [|split; [exact Inv|reflexivity]].
  split; [|reflexivity].
  unfold previewFile, set_previewReaders. cbn [previewReaders].
  apply Forall_app. split; [exact Inv|].
  constructor; [exact Himg | constructor].
Qed.

Lemma Forall_remove_nth {A : Type} (P : A -> Prop) (n : nat) :
  forall l : list A, Forall P l -> Forall P (remove_nth n l).
Proof.
  induction n as [|n IH]; intros l Hl; destruct Hl as [|x l Hx Hl];
    cbn [remove_nth]; try constructor; auto.
Qed.

Lemma runRedesigner_intake (w : World) :
  previewReaders (runRedesigner w) = previewReaders w /\
  imagePreviewContainer (dom (runRedesigner w))
    = imagePreviewContainer (dom w).
Proof. unfold runRedesigner. crush_handler. Qed.

Lemma runRedesigner_settled_intake (settled : Settlement)
  (stylePrompt : string) (w : World) :
  previewReaders (runRedesigner_settled settled stylePrompt w)
    = previewReaders w /\
  imagePreviewContainer (dom (runRedesigner_settled settled stylePrompt w))
    = imagePreviewContainer (dom w).
Proof.
  unfold runRedesigner_settled, try_after_call.
  destruct settled as [error|response]; [split; reflexivity|].
  destruct (response_parts response) as [error|ps]; [split; reflexivity|].
  destruct (scan ps) as [base64Image|]; [|split; reflexivity].
  destruct (Str.truthy base64Image); split; reflexivity.
Qed.

(** The readers of [previewFile] all load image files, and the preview
    changes only when one of them ends. *)
Lemma step_intake (e : Event) (w : World) :
  Forall (fun f => is_image f = true) (previewReaders w) ->
  Forall (fun f => is_image f = true) (previewReaders (step e w)) /\
  (imagePreviewContainer (dom (step e w)) = imagePreviewContainer (dom w) \/
   exists n result file,
     e = PreviewLoadEnd n result /\
     nth_error (previewReaders w) n = Some file /\
     is_image file = true).
Proof.
  intros Inv. destruct e; cbn [step].
  - destruct (generateButton_disabled (dom w)); [auto|].
    destruct (runRedesigner_intake w) as [Hr Hp]. rewrite Hr, Hp. auto.
  - unfold handleDrop. destruct dataTransfer as [files|]; [|auto].
    destruct (Nat.ltb 0 (List.length files)); [|auto].
    unfold seq.
    destruct (handleFiles_readers files (with_dom (set_files files) w) Inv)
      as [Hr Hp].
    split; [exact Hr | left; exact Hp].
  - destruct files as [fs|]; [|auto].
    unfold seq, handleFileSelect.
    destruct (handleFiles_readers fs (with_dom (set_files fs) w) Inv)
      as [Hr Hp].
    split; [exact Hr | left; exact Hp].
  - auto.
  - destruct (nth_error (previewReaders w) reader) as [file|] eqn:Hn;
      [|auto].
    split.
    + apply (Forall_remove_nth _ reader (previewReaders w) Inv).
    + right. exists reader, result, file.
      split; [reflexivity|]. split; [exact Hn|].
      apply (proj1 (Forall_forall _ _) Inv file).
      apply (nth_error_In _ _ Hn).
  - destruct (exchange w); auto.
  - destruct (exchange w); auto.
    destruct (runRedesigner_settled_intake settled stylePrompt w)
      as [Hr Hp].
    rewrite Hr, Hp. auto.
  - destruct (exchange w); auto.
Qed.

Lemma run_readers_images (events : list Event) :
  forall w : World,
    Forall (fun f => is_image f = true) (previewReaders w) ->
    Forall (fun f => is_image f = true) (previewReaders (run events w)).
Proof.
  induction events as [|e events IH]; intros w Inv; [exact Inv|].
  change (run (e :: events) w) with (run events (step e w)).
  apply IH, step_intake, Inv.
Qed.

End Intake.

(** C7. A file picked or dropped whose declared type does not begin with
    [image/] raises the alert, starts no preview and leaves the preview
    as it is; a file whose type does begin with [image/] starts a preview
    reader; and in every history of the page the preview is only ever
    replaced at the end of a reader that was started for a file whose type
    begins with [image/]. *)
Theorem non_image_file_never_previews
  (w : World) (file : File) (rest : list File)
  (key : option string) (d : Dom) (history : list Event) (e : Event) :
  let picked := step (Change (Some (file :: rest))) w in
  let dropped := step (Drop (Some (file :: rest))) w in
  (Str.startsWith (type file) "image/" = false ->
     alerts picked = alerts w ++ [rejection] /\
     imagePreviewContainer (dom picked) = imagePreviewContainer (dom w) /\
     previewReaders picked = previewReaders w /\
     alerts dropped = alerts w ++ [rejection] /\
     imagePreviewContainer (dom dropped) = imagePreviewContainer (dom w) /\
     previewReaders dropped = previewReaders w) /\
  (Str.startsWith (type file) "image/" = true ->
     alerts picked = alerts w /\
     previewReaders picked = previewReaders w ++ [file] /\
     alerts dropped = alerts w /\
     previewReaders dropped = previewReaders w ++ [file]) /\
  (let h := run history (boot key d) in
   imagePreviewContainer (dom (step e h)) <> imagePreviewContainer (dom h) ->
   exists n result f,
     e = PreviewLoadEnd n result /\
     nth_error (previewReaders h) n = Some f /\
     Str.startsWith (type f) "image/" = true /\
     imagePreviewContainer (dom (step e h))
       = [ {| preview_src := result;
              preview_alt := "Preview of the uploaded room image." |} ]).
Proof.
  intros picked dropped. split; [|split].
  - intros Hno. unfold picked, dropped. cbn [step handleDrop List.length].
    cbn [Nat.ltb Nat.leb]. unfold seq, handleFileSelect.
    rewrite !(handleFiles_rejects file rest _ Hno). repeat split.
  - intros Hyes. unfold picked, dropped. cbn [step handleDrop List.length].
    cbn [Nat.ltb Nat.leb]. unfold seq, handleFileSelect.
    rewrite !(handleFiles_accepts file rest _ Hyes). repeat split.
  - intros h Hchg.
    assert (Inv : Forall (fun f => is_image f = true) (previewReaders h)).
    { apply run_readers_images. constructor. }
    destruct (step_intake e h Inv) as [_ [Hsame | (n & result & f & He & Hn & Hf)]].
    + contradiction.
    + exists n, result, f. repeat split; try assumption.
      subst e. cbn [step]. rewrite Hn. reflexivity.
Qed.

(** A PDF is picked, then dropped: two alerts, no preview reader. *)
Lemma non_image_file_never_previews_witness :
  let pdf := {| type := "application/pdf"; bytes := [Byte.x25; Byte.x50] |} in
  let w := boot (Some "key")
    {| fileInput_files := [];
       imagePreviewContainer :=
         [ {| preview_src := "data:image/png;base64,iVBORw0KGgo=";
              preview_alt := "Preview of the uploaded room image." |} ];
       stylePromptInput_value := ""; generateButton_disabled := false;
       outputImage_src := ""; outputImage_alt := "";
       outputImage_display := "none";
       outputPlaceholder_textContent := "";
       outputPlaceholder_display := "block" |} in
  let picked := step (Change (Some [pdf])) w in
  let dropped := step (Drop (Some [pdf])) w in
  alerts picked = [rejection] /\
  imagePreviewContainer (dom picked) = imagePreviewContainer (dom w) /\
  previewReaders picked = [] /\
  alerts dropped = [rejection] /\
  imagePreviewContainer (dom dropped) = imagePreviewContainer (dom w) /\
  previewReaders dropped = [].
Proof.
  intros pdf w.
  apply (non_image_file_never_previews w pdf [] None (dom w) [] Click).
  reflexivity.
Defined.

(** ** The image part *)

Section ImagePart.

Lemma append_cons_assoc (s t : string) (c : ascii) (u : string) :
  (s ++ t ++ String c u)%string = ((s ++ t) ++ String c u)%string.
Proof.
  induction s as [|a s IH]; cbn [String.append]; [reflexivity|].
  rewrite IH. reflexivity.
Qed.

(** The second piece of the data URL is the Base64 text, provided the
    declared type has no comma of its own. *)
Lemma dataURL_split (file : File) :
  Str.mem ","%char (type file) = false ->
  nth_error (Str.split ","%char (dataURL file)) 1
    = Some (Base64.encode (bytes file)).
Proof.
  intros Hty. unfold dataURL.
  assert (Hm : Str.mem ","%char (mediaType file) = false).
  { unfold mediaType.
    destruct (Str.truthy (type file)); [exact Hty | reflexivity]. }
  change (";base64," ++ Base64.encode (bytes file))%string
    with (";base64" ++ String ","%char (Base64.encode (bytes file)))%string.
  rewrite (append_cons_assoc (mediaType file) ";base64").
  rewrite (append_cons_assoc "data:" (mediaType file ++ ";base64")).
  rewrite split_app.
  - rewrite (split_no_sep _ _ (encode_no_comma (bytes file))). reflexivity.
  - rewrite !mem_app, Hm. reflexivity.
Qed.

(** The proviso is needed: a comma inside the declared type moves the
    second piece of the split. *)
Example dataURL_split_comma_in_type :
  nth_error
    (Str.split ","%char
       (dataURL {| type := "image/png,x"; bytes := [Byte.x4d] |})) 1
  = Some "x;base64".
Proof. reflexivity. Qed.

End ImagePart.

(** C8. For the selected file, read by the platform into its data URL, the
    image part of the request carries the Base64 text of the file's bytes
    as [data] and the file's declared type as [mimeType], and decoding that
    text gives the file's bytes back. The declared type is a MIME type
    without a comma, as the platform assigns it. *)
Theorem image_part_is_base64_of_file (w : World) (file : File) :
  first_violation w = None ->
  generateButton_disabled (dom w) = false ->
  nth_error (fileInput_files (dom w)) 0 = Some file ->
  Str.mem ","%char (type file) = false ->
  let imagePart :=
    {| text := None;
       inlineData := Some {| data := Some (Base64.encode (bytes file));
                             mimeType := Some (type file) |} |} in
  fileToGenerativePart file (dataURL file) = imagePart /\
  requests (run [Click; ReadLoadEnd (dataURL file)] w) =
    requests w ++
    [generateContent_request imagePart (stylePromptInput_value (dom w))] /\
  Base64.decode (Base64.encode (bytes file)) = Some (bytes file).
Proof.
  intros Hok Hen Hfile Hty imagePart.
  assert (Hpart : fileToGenerativePart file (dataURL file) = imagePart).
  { unfold fileToGenerativePart. rewrite (dataURL_split file Hty).
    reflexivity. }
  split; [exact Hpart|]. split; [|apply decode_encode].
  destruct (runRedesigner_passes w Hok) as (f & Hf & Hx & Hr & _).
  rewrite Hfile in Hf. injection Hf as <-.
  cbn [run fold_left step]. rewrite Hen. cbn iota. rewrite Hx.
  unfold runRedesigner_read, seq, suspend, send. cbn [requests].
  rewrite Hr, Hpart. reflexivity.
Qed.

Lemma image_part_is_base64_of_file_witness :
  let f := {| type := "image/png";
              bytes := [Byte.x89; Byte.x50; Byte.x4e; Byte.x47] |} in
  let w := boot (Some "key")
    {| fileInput_files := [f]; imagePreviewContainer := [];
       stylePromptInput_value := "boho"; generateButton_disabled := false;
       outputImage_src := ""; outputImage_alt := "";
       outputImage_display := "none";
       outputPlaceholder_textContent := "";
       outputPlaceholder_display := "block" |} in
  let imagePart :=
    {| text := None;
       inlineData := Some {| data := Some "iVBORw==";
                             mimeType := Some "image/png" |} |} in
  fileToGenerativePart f (dataURL f) = imagePart /\
  requests (run [Click; ReadLoadEnd (dataURL f)] w) =
    [generateContent_request imagePart "boho"] /\
  Base64.decode "iVBORw==" = Some (bytes f).
Proof.
  intros f w.
  apply (image_part_is_base64_of_file w f); reflexivity.
Defined.

(** ** Further properties of the exchange *)

Section ExchangeStages.

(** The first stage, written out, when the preconditions hold. *)
Lemma runRedesigner_starts (w : World) (file : File) :
  first_violation w = None ->
  nth_error (fileInput_files (dom w)) 0 = Some file ->
  runRedesigner w =
    suspend (AwaitingRead file (stylePromptInput_value (dom w)))
      (with_dom (set_outputPlaceholder_display "block")
         (with_dom (set_outputPlaceholder_textContent generating_text)
            (with_dom (set_outputImage_display "none")
               (with_dom (set_disabled true) w)))).
Proof.
  unfold first_violation, runRedesigner, credential_configured.
  destruct (negb (Str.truthy_opt (API_KEY w))); [discriminate|].
  unfold image_present.
  destruct (fileInput_files (dom w)) as [|f fs]; [discriminate|].
  cbn [negb nth_error]. unfold style_nonempty. rewrite truthy_eqb.
  destruct (negb (negb (stylePromptInput_value (dom w) =? "")%string));
    [discriminate|].
  intros _ [= <-]. reflexivity.
Qed.

(** A click that passes the preconditions, then the end of the file
    read: one request, no alert. *)
Lemma click_then_read (w : World) (file : File) (result : string) :
  first_violation w = None ->
  generateButton_disabled (dom w) = false ->
  nth_error (fileInput_files (dom w)) 0 = Some file ->
  requests (run [Click; ReadLoadEnd result] w) =
    requests w ++
    [generateContent_request (fileToGenerativePart file result)
       (stylePromptInput_value (dom w))] /\
  alerts (run [Click; ReadLoadEnd result] w) = alerts w /\
  exchange (run [Click; ReadLoadEnd result] w)
    = AwaitingResponse (stylePromptInput_value (dom w)).
Proof.
  intros Hok Hen Hfile. cbn [run fold_left step]. rewrite Hen.
  rewrite (runRedesigner_starts w file Hok Hfile).
  repeat split.
Qed.

Lemma step_read_end (result : string) (file : File) (stylePrompt : string)
  (w : World) :
  exchange w = AwaitingRead file stylePrompt ->
  step (ReadLoadEnd result) w = runRedesigner_read file stylePrompt result w.
Proof. intros Hx. cbn [step]. rewrite Hx. reflexivity. Qed.

(** An awaited response is disturbed by nothing but its settlement. *)
Lemma awaiting_response_stable (later : list Event) (stylePrompt : string) :
  forall w : World,
    exchange w = AwaitingResponse stylePrompt ->
    generateButton_disabled (dom w) = true ->
    forallb (fun e => negb (is_settle e)) later = true ->
    exchange (run later w) = AwaitingResponse stylePrompt /\
    requests (run later w) = requests w /\
    generateButton_disabled (dom (run later w)) = true.
Proof.
  induction later as [|e later IH]; intros w Hx Hdis Hno; [cbn; auto|].
  cbn in Hno. apply andb_true_iff in Hno as [He Hes].
  change (run (e :: later) w) with (run later (step e w)).
  assert (Hstep : exchange (step e w) = AwaitingResponse stylePrompt /\
                  requests (step e w) = requests w /\
                  generateButton_disabled (dom (step e w)) = true).
  { destruct (intake_event e) eqn:Hin.
    - destruct (intake_frame e w Hin (fun _ => Hdis)) as (Hx' & Hr' & _ & Hd').
      rewrite Hx', Hr', Hd'. auto.
    - destruct e; try discriminate Hin; try discriminate He;
        cbn [step]; rewrite Hx; auto. }
  destruct Hstep as (Hx1 & Hr1 & Hd1).
  destruct (IH (step e w) Hx1 Hd1 Hes) as (Hx2 & Hr2 & Hd2).
  rewrite Hx2, Hr2, Hd2, Hr1. auto.
Qed.

End ExchangeStages.

(** X1. A drop that brings no files (no data transfer, or an empty file
    list) changes nothing and raises no alert, whereas a [change] of the
    file input to an empty selection raises the rejection alert; after it
    the generate button answers with the upload alert. *)
Theorem empty_drop_silent_empty_pick_alerts (w : World) :
  credential_configured w = true ->
  generateButton_disabled (dom w) = false ->
  step (Drop None) w = w /\
  step (Drop (Some [])) w = w /\
  step (Change None) w = w /\
  alerts (step (Change (Some [])) w) = alerts w ++ [rejection] /\
  previewReaders (step (Change (Some [])) w) = previewReaders w /\
  imagePreviewContainer (dom (step (Change (Some [])) w))
    = imagePreviewContainer (dom w) /\
  alerts (run [Change (Some []); Click] w)
    = alerts w ++ [rejection; "Please upload an image first."] /\
  requests (run [Change (Some []); Click] w) = requests w /\
  exchange (run [Change (Some []); Click] w) = exchange w.
Proof.
  intros Hkey Hen. unfold credential_configured in Hkey.
  set (w1 := alert rejection (with_dom (set_files []) w)).
  assert (Hclick : run [Change (Some []); Click] w
                   = alert "Please upload an image first." w1).
  { change (run [Change (Some []); Click] w) with (step Click w1).
    assert (Hd : generateButton_disabled (dom w1) = false) by exact Hen.
    assert (Hk : Str.truthy_opt (API_KEY w1) = true) by exact Hkey.
    cbn [step]. rewrite Hd. unfold runRedesigner. rewrite Hk.
    reflexivity. }
  rewrite Hclick. repeat split.
  cbn [alert alerts w1]. rewrite <- app_assoc. reflexivity.
Qed.

Lemma empty_drop_silent_empty_pick_alerts_witness :
  let w := boot (Some "key")
    {| fileInput_files := [ {| type := "image/png"; bytes := [] |} ];
       imagePreviewContainer := [];
       stylePromptInput_value := "boho"; generateButton_disabled := false;
       outputImage_src := ""; outputImage_alt := "";
       outputImage_display := "none";
       outputPlaceholder_textContent := "";
       outputPlaceholder_display := "block" |} in
  step (Drop None) w = w /\
  step (Drop (Some [])) w = w /\
  step (Change None) w = w /\
  alerts (step (Change (Some [])) w) = [rejection] /\
  previewReaders (step (Change (Some [])) w) = [] /\
  imagePreviewContainer (dom (step (Change (Some [])) w)) = [] /\
  alerts (run [Change (Some []); Click] w)
    = [rejection; "Please upload an image first."] /\
  requests (run [Change (Some []); Click] w) = [] /\
  exchange (run [Change (Some []); Click] w) = Idle.
Proof.
  intros w. apply (empty_drop_silent_empty_pick_alerts w); reflexivity.
Defined.

(** X2. The type check guards the preview only. A file whose declared type
    does not begin with [image/] is rejected with an alert when picked or
    dropped, yet it is the selected file from then on: the next click on
    the generate button reads it and sends it, with its declared type as
    [mimeType]. *)
Theorem rejected_file_is_still_sent
  (w : World) (file : File) (rest : list File) (result : string) :
  Str.startsWith (type file) "image/" = false ->
  credential_configured w = true ->
  style_nonempty w = true ->
  generateButton_disabled (dom w) = false ->
  let sent :=
    generateContent_request (fileToGenerativePart file result)
      (stylePromptInput_value (dom w)) in
  let dropped := run [Drop (Some (file :: rest)); Click; ReadLoadEnd result] w in
  let picked := run [Change (Some (file :: rest)); Click; ReadLoadEnd result] w in
  alerts dropped = alerts w ++ [rejection] /\
  requests dropped = requests w ++ [sent] /\
  alerts picked = alerts w ++ [rejection] /\
  requests picked = requests w ++ [sent] /\
  (exists d, inlineData (fileToGenerativePart file result)
             = Some {| data := d; mimeType := Some (type file) |}).
Proof.
  intros Hno Hkey Hstyle Hen sent dropped picked.
  set (w1 := alert rejection (with_dom (set_files (file :: rest)) w)).
  assert (Hdrop : step (Drop (Some (file :: rest))) w = w1).
  { cbn [step handleDrop List.length Nat.ltb Nat.leb]. unfold seq.
    rewrite (handleFiles_rejects file rest _ Hno). reflexivity. }
  assert (Hpick : step (Change (Some (file :: rest))) w = w1).
  { cbn [step]. unfold seq, handleFileSelect.
    rewrite (handleFiles_rejects file rest _ Hno). reflexivity. }
  assert (Hok : first_violation w1 = None).
  { unfold first_violation.
    change (credential_configured w1) with (credential_configured w).
    change (style_nonempty w1) with (style_nonempty w).
    rewrite Hkey, Hstyle. reflexivity. }
  destruct (click_then_read w1 file result Hok Hen eq_refl)
    as (Hr & Ha & _).
  assert (Hd : dropped = run [Click; ReadLoadEnd result] w1).
  { unfold dropped. change (run (?e :: ?es) w) with (run es (step e w)).
    rewrite Hdrop. reflexivity. }
  assert (Hp : picked = run [Click; ReadLoadEnd result] w1).
  { unfold picked. change (run (?e :: ?es) w) with (run es (step e w)).
    rewrite Hpick. reflexivity. }
  rewrite Hd, Hp, Hr, Ha. repeat split.
  eexists. reflexivity.
Qed.

Lemma rejected_file_is_still_sent_witness :
  let pdf := {| type := "application/pdf"; bytes := [Byte.x25; Byte.x50] |} in
  let w := boot (Some "key")
    {| fileInput_files := []; imagePreviewContainer := [];
       stylePromptInput_value := "boho"; generateButton_disabled := false;
       outputImage_src := ""; outputImage_alt := "";
       outputImage_display := "none";
       outputPlaceholder_textContent := "";
       outputPlaceholder_display := "block" |} in
  let sent :=
    generateContent_request (fileToGenerativePart pdf (dataURL pdf)) "boho" in
  let dropped := run [Drop (Some [pdf]); Click; ReadLoadEnd (dataURL pdf)] w in
  let picked := run [Change (Some [pdf]); Click; ReadLoadEnd (dataURL pdf)] w in
  alerts dropped = [rejection] /\
  requests dropped = [sent] /\
  alerts picked = [rejection] /\
  requests picked = [sent] /\
  (exists d, inlineData (fileToGenerativePart pdf (dataURL pdf))
             = Some {| data := d; mimeType := Some "application/pdf" |}).
Proof.
  intros pdf w.
  apply (rejected_file_is_still_sent w pdf [] (dataURL pdf)); reflexivity.
Defined.

(** X3. The exchange works on what the page held at the click. Whatever
    the user types, picks or drops while the file is read and the call is
    outstanding, the request carries the file and the style of the click,
    and after a success the alternative text of the output image names the
    style of the click. *)
Theorem exchange_uses_click_snapshot
  (w : World) (file : File) (meanwhile1 meanwhile2 : list Event)
  (result : string) (response : GenerateContentResponse) (ps : list Part)
  (base64Image : string) :
  first_violation w = None ->
  generateButton_disabled (dom w) = false ->
  nth_error (fileInput_files (dom w)) 0 = Some file ->
  forallb intake_event meanwhile1 = true ->
  forallb intake_event meanwhile2 = true ->
  response_parts response = inr ps ->
  scan ps = Some base64Image ->
  Str.truthy base64Image = true ->
  let stylePrompt := stylePromptInput_value (dom w) in
  let w3 := step (ReadLoadEnd result) (run meanwhile1 (step Click w)) in
  let w5 := step (Settle (Fulfilled response)) (run meanwhile2 w3) in
  requests w3 =
    requests w ++
    [generateContent_request (fileToGenerativePart file result) stylePrompt] /\
  requests w5 = requests w3 /\
  outputImage_alt (dom w5)
    = ("Redesigned room in the style of " ++ stylePrompt)%string /\
  outputImage_src (dom w5) = ("data:image/jpeg;base64," ++ base64Image)%string.
Proof.
  intros Hok Hen Hfile Hm1 Hm2 Hps Hscan Ht stylePrompt w3 w5.
  assert (Hw1 : step Click w = runRedesigner w).
  { cbn [step]. rewrite Hen. reflexivity. }
  pose proof (runRedesigner_starts w file Hok Hfile) as Hstart.
  assert (Hx1 : exchange (step Click w) = AwaitingRead file stylePrompt)
    by (rewrite Hw1, Hstart; reflexivity).
  assert (Hr1 : requests (step Click w) = requests w)
    by (rewrite Hw1, Hstart; reflexivity).
  assert (Hd1 : generateButton_disabled (dom (step Click w)) = true)
    by (rewrite Hw1, Hstart; reflexivity).
  destruct (intake_run_frame meanwhile1 (step Click w) Hm1 Hd1)
    as (Hx2 & Hr2 & _ & Hd2).
  rewrite Hx1 in Hx2. rewrite Hr1 in Hr2.
  assert (Hw3 : w3 = runRedesigner_read file stylePrompt result
                       (run meanwhile1 (step Click w))).
  { unfold w3. apply step_read_end. exact Hx2. }
  assert (Hr3 : requests w3 =
                requests w ++
                [generateContent_request (fileToGenerativePart file result)
                   stylePrompt]).
  { rewrite Hw3. unfold runRedesigner_read, seq, suspend, send.
    cbn [requests]. rewrite Hr2. reflexivity. }
  assert (Hx3 : exchange w3 = AwaitingResponse stylePrompt)
    by (rewrite Hw3; reflexivity).
  assert (Hd3 : generateButton_disabled (dom w3) = true)
    by (rewrite Hw3; exact Hd2).
  destruct (intake_run_frame meanwhile2 w3 Hm2 Hd3) as (Hx4 & Hr4 & _ & _).
  rewrite Hx3 in Hx4.
  assert (Hs : succeeded (Fulfilled response) = true).
  { unfold succeeded. rewrite Hps, Hscan. exact Ht. }
  destruct (settled_success (Fulfilled response) stylePrompt
              (run meanwhile2 w3) Hs)
    as (r & ps' & d & Heq & Hps' & Hd & _ & Hrun).
  injection Heq as <-. rewrite Hps in Hps'. injection Hps' as <-.
  rewrite Hscan in Hd. injection Hd as <-.
  assert (Hw5 : w5 = suspend Idle (finally_block
                       (display_result base64Image stylePrompt
                          (run meanwhile2 w3)))).
  { unfold w5. rewrite (step_settle (Fulfilled response) stylePrompt _ Hx4).
    exact Hrun. }
  split; [exact Hr3|]. rewrite Hw5. repeat split. exact Hr4.
Qed.

Lemma exchange_uses_click_snapshot_witness :
  let f := {| type := "image/png"; bytes := [Byte.x89; Byte.x50] |} in
  let g := {| type := "image/gif"; bytes := [Byte.x47; Byte.x49] |} in
  let w := boot (Some "key")
    {| fileInput_files := [f]; imagePreviewContainer := [];
       stylePromptInput_value := "boho"; generateButton_disabled := false;
       outputImage_src := ""; outputImage_alt := "";
       outputImage_display := "none";
       outputPlaceholder_textContent := "";
       outputPlaceholder_display := "block" |} in
  let response :=
    response_of [ {| text := None;
                     inlineData := Some {| data := Some "QUJD";
                                           mimeType := Some "image/png" |} |} ] in
  let w3 := step (ReadLoadEnd (dataURL f))
              (run [Input "rustic"; Change (Some [g])] (step Click w)) in
  let w5 := step (Settle (Fulfilled response))
              (run [Input "loft"; Drop (Some [g]); Click] w3) in
  requests w3 =
    [generateContent_request (fileToGenerativePart f (dataURL f)) "boho"] /\
  requests w5 = requests w3 /\
  outputImage_alt (dom w5) = "Redesigned room in the style of boho" /\
  outputImage_src (dom w5) = "data:image/jpeg;base64,QUJD".
Proof.
  intros f g w response.
  apply (exchange_uses_click_snapshot w f
           [Input "rustic"; Change (Some [g])]
           [Input "loft"; Drop (Some [g]); Click]
           (dataURL f) response
           [ {| text := None;
                inlineData := Some {| data := Some "QUJD";
                                      mimeType := Some "image/png" |} |} ]
           "QUJD");
    reflexivity.
Defined.

(** X4. At most one call is outstanding. In every history of the page,
    once a response is awaited the trigger is disabled, and until the call
    settles no event, clicks included, issues a further request or moves
    the exchange. *)
Theorem one_call_in_flight
  (key : option string) (d : Dom) (history later : list Event)
  (stylePrompt : string) :
  let w := run history (boot key d) in
  exchange w = AwaitingResponse stylePrompt ->
  forallb (fun e => negb (is_settle e)) later = true ->
  generateButton_disabled (dom w) = true /\
  exchange (run later w) = AwaitingResponse stylePrompt /\
  requests (run later w) = requests w /\
  generateButton_disabled (dom (run later w)) = true.
Proof.
  intros w Hx Hlater.
  assert (Hdis : generateButton_disabled (dom w) = true).
  { apply (run_suspended_disabled history (boot key d)
             (boot_suspended_disabled key d)).
    fold w. rewrite Hx. discriminate. }
  split; [exact Hdis|].
  apply (awaiting_response_stable later stylePrompt w Hx Hdis Hlater).
Qed.

Lemma one_call_in_flight_witness :
  let f := {| type := "image/png"; bytes := [Byte.x89; Byte.x50] |} in
  let d :=
    {| fileInput_files := []; imagePreviewContainer := [];
       stylePromptInput_value := ""; generateButton_disabled := false;
       outputImage_src := ""; outputImage_alt := "";
       outputImage_display := "none";
       outputPlaceholder_textContent := "";
       outputPlaceholder_display := "block" |} in
  let history :=
    [Change (Some [f]); Input "boho"; Click; ReadLoadEnd (dataURL f)] in
  let later :=
    [Click; Input "loft"; Click; ReadLoadEnd (dataURL f); Drop (Some [f]);
     PreviewLoadEnd 0 (dataURL f); Click] in
  let w := run history (boot (Some "key") d) in
  generateButton_disabled (dom w) = true /\
  exchange (run later w) = AwaitingResponse "boho" /\
  requests (run later w) = requests w /\
  generateButton_disabled (dom (run later w)) = true.
Proof.
  intros f d history later.
  apply (one_call_in_flight (Some "key") d history later "boho");
    reflexivity.
Defined.

Section OutputFrames.

(** The handlers of the intake surface never write to the output image or
    the placeholder. *)
Lemma intake_output_frame (e : Event) (w : World) :
  intake_event e = true ->
  (e = Click -> generateButton_disabled (dom w) = true) ->
  output_surface (dom (step e w)) = output_surface (dom w).
Proof.
  intros Hin Hclick. destruct e; try discriminate Hin; cbn [step].
  - rewrite (Hclick eq_refl). reflexivity.
  - unfold handleDrop. destruct dataTransfer as [files|]; [|reflexivity].
    destruct (Nat.ltb 0 (List.length files)); [|reflexivity].
    unfold seq.
    destruct (handleFiles_frame files (with_dom (set_files files) w))
      as (Hd & _).
    rewrite Hd. reflexivity.
  - destruct files as [fs|]; [|reflexivity].
    unfold seq, handleFileSelect.
    destruct (handleFiles_frame fs (with_dom (set_files fs) w)) as (Hd & _).
    rewrite Hd. reflexivity.
  - reflexivity.
  - destruct (nth_error (previewReaders w) reader); reflexivity.
Qed.

Lemma intake_run_output_frame (events : list Event) :
  forall w : World,
    forallb intake_event events = true ->
    generateButton_disabled (dom w) = true ->
    output_surface (dom (run events w)) = output_surface (dom w).
Proof.
  induction events as [|e events IH]; intros w Hall Hdis; [reflexivity|].
  cbn in Hall. apply andb_true_iff in Hall as [He Hes].
  change (run (e :: events) w) with (run events (step e w)).
  destruct (intake_frame e w He (fun _ => Hdis)) as (_ & _ & _ & Hd).
  rewrite Hdis in Hd.
  rewrite (IH (step e w) Hes Hd).
  apply (intake_output_frame e w He (fun _ => Hdis)).
Qed.

(** The last stage leaves the inputs of the exchange as they are. *)
Lemma settled_keeps_inputs (settled : Settlement) (stylePrompt : string)
  (w : World) :
  API_KEY (runRedesigner_settled settled stylePrompt w) = API_KEY w /\
  fileInput_files (dom (runRedesigner_settled settled stylePrompt w))
    = fileInput_files (dom w) /\
  stylePromptInput_value (dom (runRedesigner_settled settled stylePrompt w))
    = stylePromptInput_value (dom w) /\
  alerts (runRedesigner_settled settled stylePrompt w) = alerts w.
Proof.
  unfold runRedesigner_settled, try_after_call.
  destruct settled as [error|response]; [repeat split|].
  destruct (response_parts response) as [error|ps]; [repeat split|].
  destruct (scan ps) as [base64Image|]; [|repeat split].
  destruct (Str.truthy base64Image); repeat split.
Qed.

End OutputFrames.

(** X5. From the click to the settlement the output surface is in its
    loading state: the output image is hidden (a result of an earlier
    exchange included), the placeholder is visible and carries the
    generating text, whatever intake events come in between. The source and
    the alternative text of the output image are those from before the
    click. *)
Theorem loading_state_until_settled
  (w : World) (meanwhile1 meanwhile2 : list Event) (result : string) :
  first_violation w = None ->
  generateButton_disabled (dom w) = false ->
  forallb intake_event meanwhile1 = true ->
  forallb intake_event meanwhile2 = true ->
  let loading :=
    (outputImage_src (dom w), outputImage_alt (dom w), "none",
     generating_text, "block") in
  let w1 := step Click w in
  let w2 := run meanwhile1 w1 in
  let w3 := step (ReadLoadEnd result) w2 in
  let w4 := run meanwhile2 w3 in
  output_surface (dom w1) = loading /\
  output_surface (dom w2) = loading /\
  output_surface (dom w3) = loading /\
  output_surface (dom w4) = loading /\
  exchange w4 = AwaitingResponse (stylePromptInput_value (dom w)).
Proof.
  intros Hok Hen Hm1 Hm2 loading w1 w2 w3 w4.
  destruct (runRedesigner_passes w Hok) as (file & Hfile & _).
  pose proof (runRedesigner_starts w file Hok Hfile) as Hstart.
  assert (Hw1 : w1 = runRedesigner w).
  { unfold w1. cbn [step]. rewrite Hen. reflexivity. }
  assert (Ho1 : output_surface (dom w1) = loading)
    by (rewrite Hw1, Hstart; reflexivity).
  assert (Hd1 : generateButton_disabled (dom w1) = true)
    by (rewrite Hw1, Hstart; reflexivity).
  assert (Hx1 : exchange w1
                = AwaitingRead file (stylePromptInput_value (dom w)))
    by (rewrite Hw1, Hstart; reflexivity).
  pose proof (intake_run_output_frame meanwhile1 w1 Hm1 Hd1) as Ho2.
  destruct (intake_run_frame meanwhile1 w1 Hm1 Hd1) as (Hx2 & _ & _ & Hd2).
  fold w2 in Ho2, Hx2, Hd2. rewrite Ho1 in Ho2. rewrite Hx1 in Hx2.
  assert (Hw3 : w3 = runRedesigner_read file
                       (stylePromptInput_value (dom w)) result w2).
  { unfold w3. apply step_read_end. exact Hx2. }
  assert (Ho3 : output_surface (dom w3) = loading)
    by (rewrite Hw3; exact Ho2).
  assert (Hd3 : generateButton_disabled (dom w3) = true)
    by (rewrite Hw3; exact Hd2).
  assert (Hx3 : exchange w3
                = AwaitingResponse (stylePromptInput_value (dom w)))
    by (rewrite Hw3; reflexivity).
  pose proof (intake_run_output_frame meanwhile2 w3 Hm2 Hd3) as Ho4.
  destruct (intake_run_frame meanwhile2 w3 Hm2 Hd3) as (Hx4 & _).
  fold w4 in Ho4, Hx4. rewrite Ho3 in Ho4. rewrite Hx3 in Hx4.
  repeat split; assumption.
Qed.

(** A second exchange starts while the result of a first one is shown. *)
Lemma loading_state_until_settled_witness :
  let f := {| type := "image/png"; bytes := [Byte.x89; Byte.x50] |} in
  let w := boot (Some "key")
    {| fileInput_files := [f]; imagePreviewContainer := [];
       stylePromptInput_value := "boho"; generateButton_disabled := false;
       outputImage_src := "data:image/jpeg;base64,QUJD";
       outputImage_alt := "Redesigned room in the style of loft";
       outputImage_display := "block";
       outputPlaceholder_textContent := generating_text;
       outputPlaceholder_display := "none" |} in
  let loading :=
    ("data:image/jpeg;base64,QUJD", "Redesigned room in the style of loft",
     "none", generating_text, "block") in
  let w1 := step Click w in
  let w2 := run [Input "rustic"; Click] w1 in
  let w3 := step (ReadLoadEnd (dataURL f)) w2 in
  let w4 := run [Drop (Some [f]); PreviewLoadEnd 0 (dataURL f)] w3 in
  output_surface (dom w1) = loading /\
  output_surface (dom w2) = loading /\
  output_surface (dom w3) = loading /\
  output_surface (dom w4) = loading /\
  exchange w4 = AwaitingResponse "boho".
Proof.
  intros f w.
  apply (loading_state_until_settled w [Input "rustic"; Click]
           [Drop (Some [f]); PreviewLoadEnd 0 (dataURL f)] (dataURL f));
    reflexivity.
Defined.

(** X6. No outcome of an exchange is final. However the call settles, the
    page afterwards still holds the file, the style and the credential, the
    trigger is enabled and the exchange is idle, so a further click passes
    the preconditions and sends a second request for the same file and
    style; no alert is raised on the way. *)
Theorem exchange_can_be_repeated
  (w : World) (file : File) (result again : string) (settled : Settlement) :
  first_violation w = None ->
  generateButton_disabled (dom w) = false ->
  nth_error (fileInput_files (dom w)) 0 = Some file ->
  let stylePrompt := stylePromptInput_value (dom w) in
  let w5 := run [Click; ReadLoadEnd result; Settle settled] w in
  first_violation w5 = None /\
  generateButton_disabled (dom w5) = false /\
  exchange w5 = Idle /\
  alerts w5 = alerts w /\
  requests (run [Click; ReadLoadEnd again] w5) =
    requests w ++
    [generateContent_request (fileToGenerativePart file result) stylePrompt;
     generateContent_request (fileToGenerativePart file again) stylePrompt].
Proof.
  intros Hok Hen Hfile stylePrompt w5.
  set (w3 := run [Click; ReadLoadEnd result] w).
  destruct (click_then_read w file result Hok Hen Hfile) as (Hr3 & Ha3 & Hx3).
  fold w3 in Hr3, Ha3, Hx3.
  assert (Hw3 : w3 = runRedesigner_read file stylePrompt result
                       (runRedesigner w)).
  { unfold w3.
    change (run [Click; ReadLoadEnd result] w)
      with (step (ReadLoadEnd result) (step Click w)).
    assert (Hc : step Click w = runRedesigner w)
      by (cbn [step]; rewrite Hen; reflexivity).
    rewrite Hc. apply step_read_end.
    rewrite (runRedesigner_starts w file Hok Hfile). reflexivity. }
  assert (Hw5 : w5 = runRedesigner_settled settled stylePrompt w3).
  { change w5 with (step (Settle settled) w3). apply step_settle, Hx3. }
  destruct (settled_keeps_inputs settled stylePrompt w3)
    as (Hk & Hf & Hs & Ha).
  destruct (settled_enables settled stylePrompt w3) as (Hd5 & Hx5).
  rewrite <- Hw5 in Hk, Hf, Hs, Ha, Hd5, Hx5.
  assert (Hk3 : API_KEY w3 = API_KEY w)
    by (rewrite Hw3, (runRedesigner_starts w file Hok Hfile); reflexivity).
  assert (Hf3 : fileInput_files (dom w3) = fileInput_files (dom w))
    by (rewrite Hw3, (runRedesigner_starts w file Hok Hfile); reflexivity).
  assert (Hs3 : stylePromptInput_value (dom w3) = stylePrompt)
    by (rewrite Hw3, (runRedesigner_starts w file Hok Hfile); reflexivity).
  assert (Hok5 : first_violation w5 = None).
  { unfold first_violation, credential_configured, image_present,
      style_nonempty in *.
    rewrite Hk, Hf, Hs, Hk3, Hf3, Hs3. exact Hok. }
  assert (Hfile5 : nth_error (fileInput_files (dom w5)) 0 = Some file)
    by (rewrite Hf, Hf3; exact Hfile).
  destruct (click_then_read w5 file again Hok5 Hd5 Hfile5) as (Hr & _).
  assert (Hr5 : requests w5 = requests w3)
    by (rewrite Hw5; apply runRedesigner_settled_requests).
  repeat split; try assumption.
  - rewrite Ha. exact Ha3.
  - rewrite Hr, Hr5, Hr3, Hs, Hs3, <- app_assoc. reflexivity.
Qed.

Lemma exchange_can_be_repeated_witness :
  let f := {| type := "image/png"; bytes := [Byte.x89; Byte.x50] |} in
  let w := boot (Some "key")
    {| fileInput_files := [f]; imagePreviewContainer := [];
       stylePromptInput_value := "boho"; generateButton_disabled := false;
       outputImage_src := ""; outputImage_alt := "";
       outputImage_display := "none";
       outputPlaceholder_textContent := "";
       outputPlaceholder_display := "block" |} in
  let w5 := run [Click; ReadLoadEnd (dataURL f);
                 Settle (Rejected (Error "Failed to fetch"))] w in
  first_violation w5 = None /\
  generateButton_disabled (dom w5) = false /\
  exchange w5 = Idle /\
  alerts w5 = [] /\
  requests (run [Click; ReadLoadEnd (dataURL f)] w5) =
    [generateContent_request (fileToGenerativePart f (dataURL f)) "boho";
     generateContent_request (fileToGenerativePart f (dataURL f)) "boho"].
Proof.
  intros f w.
  apply (exchange_can_be_repeated w f (dataURL f) (dataURL f)
           (Rejected (Error "Failed to fetch")));
    reflexivity.
Defined.

(** ** Further properties of the intake surface *)

(** X7. The preview never accumulates. In every history of the page the
    preview container holds either what the document gave it or exactly one
    image, the result of a reader, with the fixed alternative text. *)
Theorem preview_holds_one_image
  (key : option string) (d : Dom) (history : list Event) :
  let shown := imagePreviewContainer (dom (run history (boot key d))) in
  shown = imagePreviewContainer d \/
  exists result : string, shown = [preview_of result].
Proof.
  induction history as [|e history IH] using rev_ind; [left; reflexivity|].
  cbn zeta in *. rewrite run_app.
  set (h := run history (boot key d)) in *.
  change (run [e] h) with (step e h).
  assert (Inv : Forall (fun f => is_image f = true) (previewReaders h)).
  { apply run_readers_images. constructor. }
  destruct (step_intake e h Inv)
    as [_ [Hsame | (n & result & f & He & Hn & _)]].
  - rewrite Hsame. exact IH.
  - right. exists result. subst e. cbn [step]. rewrite Hn. reflexivity.
Qed.

(** X8. The preview shows the reader that ended last, not the file that
    was picked last. When a first image is picked, then a second, and the
    reader of the first ends after the reader of the second, the preview
    shows the first image while the selected file, the one an exchange
    would send, is the second. *)
Theorem preview_shows_last_finished_reader
  (w : World) (a b : File) (rest_a rest_b : list File)
  (result_a result_b : string) :
  Str.startsWith (type a) "image/" = true ->
  Str.startsWith (type b) "image/" = true ->
  previewReaders w = [] ->
  let w' := run [Change (Some (a :: rest_a)); Change (Some (b :: rest_b));
                 PreviewLoadEnd 1 result_b; PreviewLoadEnd 0 result_a] w in
  imagePreviewContainer (dom w') = [preview_of result_a] /\
  fileInput_files (dom w') = b :: rest_b /\
  previewReaders w' = [] /\
  alerts w' = alerts w.
Proof.
  intros Ha Hb Hnone w'. unfold w'.
  cbn [run fold_left step]. unfold seq, handleFileSelect.
  rewrite (handleFiles_accepts a rest_a _ Ha).
  rewrite (handleFiles_accepts b rest_b _ Hb).
  unfold previewFile, set_previewReaders, with_dom.
  cbn [previewReaders dom]. rewrite Hnone. cbn [app nth_error remove_nth].
  unfold previewFile_onloadend, with_dom. cbn.
  repeat split.
Qed.

Lemma preview_shows_last_finished_reader_witness :
  let a := {| type := "image/png"; bytes := [Byte.x89; Byte.x50] |} in
  let b := {| type := "image/gif"; bytes := [Byte.x47] |} in
  let w := boot (Some "key")
    {| fileInput_files := []; imagePreviewContainer := [];
       stylePromptInput_value := ""; generateButton_disabled := false;
       outputImage_src := ""; outputImage_alt := "";
       outputImage_display := "none";
       outputPlaceholder_textContent := "";
       outputPlaceholder_display := "block" |} in
  let w' := run [Change (Some [a]); Change (Some [b]);
                 PreviewLoadEnd 1 (dataURL b); PreviewLoadEnd 0 (dataURL a)] w in
  imagePreviewContainer (dom w') = [preview_of (dataURL a)] /\
  fileInput_files (dom w') = [b] /\
  previewReaders w' = [] /\
  alerts w' = [].
Proof.
  intros a b w.
  apply (preview_shows_last_finished_reader w a b [] [] (dataURL a)
           (dataURL b));
    reflexivity.
Defined.

(** ** Further properties of the response handling *)

(** X9. Only the first candidate of a response is read. Whatever the
    candidates after it are, and whatever state the page is in, the
    handler does what it does for the first candidate alone; in
    particular, when the parts of the first candidate carry no inline
    data, the failure is shown even if a later candidate holds an
    image. *)
Theorem only_first_candidate_is_read
  (w : World) (c : Candidate) (others : list Candidate) :
  let response := {| candidates := Some (c :: others) |} in
  step (Settle (Fulfilled response)) w
    = step (Settle (Fulfilled {| candidates := Some [c] |})) w /\
  response_parts response
    = response_parts {| candidates := Some [c] |} /\
  (forall (stylePrompt : string) (ps : list Part),
      exchange w = AwaitingResponse stylePrompt ->
      content c = Some {| parts := Some ps |} ->
      scan ps = None ->
      failure_surfaced no_image_message
        (step (Settle (Fulfilled response)) w) /\
      outputImage_src (dom (step (Settle (Fulfilled response)) w))
        = outputImage_src (dom w)).
Proof.
  intros response.
  split; [cbn [step]; destruct (exchange w); reflexivity|].
  split; [reflexivity|].
  intros stylePrompt ps Hx Hc Hscan.
  assert (Hps : response_parts response = inr ps).
  { unfold response_parts, response. cbn [candidates nth_error].
    rewrite Hc. reflexivity. }
  rewrite (step_settle (Fulfilled response) stylePrompt w Hx).
  assert (Hs : succeeded (Fulfilled response) = false).
  { unfold succeeded. rewrite Hps, Hscan. reflexivity. }
  destruct (settled_failure (Fulfilled response) stylePrompt w Hs)
    as (error & Hrun & _ & Hful).
  rewrite (Hful response ps eq_refl Hps) in Hrun.
  rewrite Hrun. repeat split.
Qed.

(** A refusal in the first candidate, an image in the second. *)
Lemma only_first_candidate_is_read_witness :
  let w := suspend (AwaitingResponse "boho") (boot (Some "key")
    {| fileInput_files := []; imagePreviewContainer := [];
       stylePromptInput_value := "boho"; generateButton_disabled := true;
       outputImage_src := ""; outputImage_alt := "";
       outputImage_display := "none";
       outputPlaceholder_textContent := "";
       outputPlaceholder_display := "block" |}) in
  let ps := [ {| text := Some "I cannot do that"; inlineData := None |} ] in
  let c := {| content := Some {| parts := Some ps |} |} in
  let second :=
    {| content := Some {| parts := Some
         [ {| text := None;
              inlineData := Some {| data := Some "QUJD";
                                    mimeType := Some "image/png" |} |} ] |} |} in
  let response := {| candidates := Some (c :: [second]) |} in
  step (Settle (Fulfilled response)) w
    = step (Settle (Fulfilled {| candidates := Some [c] |})) w /\
  failure_surfaced no_image_message (step (Settle (Fulfilled response)) w) /\
  outputImage_src (dom (step (Settle (Fulfilled response)) w))
    = outputImage_src (dom w).
Proof.
  intros w ps c second response.
  destruct (only_first_candidate_is_read w c [second]) as (Heq & _ & Hfail).
  split; [exact Heq|].
  apply (Hfail "boho" ps); reflexivity.
Defined.

(** X10. What a settlement puts on the console. A settlement raises no
    alert and sends nothing. After a success the console is as before;
    after a failure it has one more entry, labelled
    [Error generating image:], holding the very error whose message the
    placeholder shows. *)
Theorem settlement_logs_failures_only
  (w : World) (stylePrompt : string) (settled : Settlement) :
  exchange w = AwaitingResponse stylePrompt ->
  let w' := step (Settle settled) w in
  alerts w' = alerts w /\
  requests w' = requests w /\
  (succeeded settled = true -> console w' = console w) /\
  (succeeded settled = false ->
   exists error : JsError,
     console w' = console w ++ [("Error generating image:", error)] /\
     outputPlaceholder_textContent (dom w')
       = ("Sorry, an error occurred: " ++ message error)%string).
Proof.
  intros Hx w'. unfold w'. rewrite (step_settle settled stylePrompt w Hx).
  split; [apply settled_keeps_inputs|].
  split; [apply runRedesigner_settled_requests|].
  split.
  - intros Hs.
    destruct (settled_success settled stylePrompt w Hs)
      as (r & ps & d & _ & _ & _ & _ & Hrun).
    rewrite Hrun. reflexivity.
  - intros Hs.
    destruct (settled_failure settled stylePrompt w Hs)
      as (error & Hrun & _).
    exists error. rewrite Hrun. split; reflexivity.
Qed.

Lemma settlement_logs_failures_only_witness :
  let w := suspend (AwaitingResponse "boho") (boot (Some "key")
    {| fileInput_files := []; imagePreviewContainer := [];
       stylePromptInput_value := "boho"; generateButton_disabled := true;
       outputImage_src := ""; outputImage_alt := "";
       outputImage_display := "none";
       outputPlaceholder_textContent := "";
       outputPlaceholder_display := "block" |}) in
  let settled := Fulfilled {| candidates := Some [] |} in
  let w' := step (Settle settled) w in
  alerts w' = alerts w /\
  requests w' = requests w /\
  (succeeded settled = true -> console w' = console w) /\
  (succeeded settled = false ->
   exists error : JsError,
     console w' = console w ++ [("Error generating image:", error)] /\
     outputPlaceholder_textContent (dom w')
       = ("Sorry, an error occurred: " ++ message error)%string).
Proof.
  intros w settled.
  apply (settlement_logs_failures_only w "boho" settled). reflexivity.
Defined.

(** X11. A reader result without a comma is not refused. The second piece
    of the split is then absent: the request goes out all the same, its
    image part carrying no data and the declared type of the file, and the
    exchange awaits the response. *)
Theorem result_without_comma_is_sent_without_data
  (w : World) (file : File) (stylePrompt result : string) :
  exchange w = AwaitingRead file stylePrompt ->
  Str.mem ","%char result = false ->
  let w' := step (ReadLoadEnd result) w in
  requests w' =
    requests w ++
    [generateContent_request
       {| text := None;
          inlineData := Some {| data := None;
                                mimeType := Some (type file) |} |}
       stylePrompt] /\
  exchange w' = AwaitingResponse stylePrompt /\
  alerts w' = alerts w /\
  dom w' = dom w.
Proof.
  intros Hx Hno w'. unfold w'.
  rewrite (step_read_end result file stylePrompt w Hx).
  unfold runRedesigner_read, fileToGenerativePart.
  rewrite (split_no_sep ","%char result Hno). repeat split.
Qed.

Lemma result_without_comma_is_sent_without_data_witness :
  let f := {| type := "image/png"; bytes := [] |} in
  let w := suspend (AwaitingRead f "boho") (boot (Some "key")
    {| fileInput_files := [f]; imagePreviewContainer := [];
       stylePromptInput_value := "boho"; generateButton_disabled := true;
       outputImage_src := ""; outputImage_alt := "";
       outputImage_display := "none";
       outputPlaceholder_textContent := generating_text;
       outputPlaceholder_display := "block" |}) in
  let w' := step (ReadLoadEnd "data:") w in
  requests w' =
    [generateContent_request
       {| text := None;
          inlineData := Some {| data := None;
                                mimeType := Some "image/png" |} |}
       "boho"] /\
  exchange w' = AwaitingResponse "boho" /\
  alerts w' = alerts w /\
  dom w' = dom w.
Proof.
  intros f w.
  apply (result_without_comma_is_sent_without_data w f "boho" "data:");
    reflexivity.
Defined.

(** ** Page setup and drag events *)

(** X12. The handlers are wired exactly when all eight lookups succeed,
    and then the page starts idle, with nothing alerted, logged or sent.
    When the output container is missing the listener ends in an uncaught
    [TypeError], whatever else is found, since the paragraph is looked up
    in the container before the guard; the diagnostic of the guard is
    logged exactly when the container is there and something else is
    missing. *)
Theorem setup_wires_complete_pages_only
  (key : option string) (doc : Document) :
  ((exists w hl, DOMContentLoaded key doc = Wired w hl) <->
   all_elements_found doc = true) /\
  (forall w hl,
      DOMContentLoaded key doc = Wired w hl ->
      w = boot key (dom w) /\
      drop_area doc = Some hl /\
      room_image doc = Some (fileInput_files (dom w)) /\
      generate_button doc = Some (generateButton_disabled (dom w))) /\
  ((exists error, DOMContentLoaded key doc = Uncaught error) <->
   output_image_container doc = None) /\
  ((exists diagnostic, DOMContentLoaded key doc = NotWired diagnostic) <->
   (output_image_container doc <> None /\ all_elements_found doc = false)).
Proof.
  destruct doc as [fi da pc sp gb oc oi].
  unfold DOMContentLoaded, all_elements_found.
  cbn [room_image drop_area image_preview_container style_prompt
       generate_button output_image_container output_image].
  destruct oc as [[p|]|], fi as [files|], da as [hl0|], pc as [imgs|],
    sp as [value|], gb as [dis|], oi as [img|]; cbn [present andb];
    repeat split; intros;
    repeat match goal with
           | H : exists _, _ |- _ => destruct H
           | H : _ /\ _ |- _ => destruct H
           | H : Wired _ _ = Wired _ _ |- _ => injection H as <- <-
           end;
    try congruence; try reflexivity; eauto.
Qed.

(** X13. A [dragenter], a [dragover] or a [drop], on the drop area or
    elsewhere on the body, never keeps its default action, so the browser
    does not open a dropped file; a [dragleave] is not cancelable, so
    [preventDefault] leaves it as it is. Every drag event has its
    propagation stopped, and one on the drop area does not reach the
    listener of the body. Only a [drop] on the drop area can change the
    page: an event on the body changes nothing, and a drag that enters,
    moves over or leaves the drop area changes the highlight only. *)
Theorem drag_events_are_prevented (ev : DragEvent) (s : Surface) :
  defaultPrevented (snd (dispatch ev s)) = cancelable_kind (kind ev) /\
  (kind ev <> dragleave -> defaultPrevented (snd (dispatch ev s)) = true) /\
  (kind ev = dragleave -> defaultPrevented (snd (dispatch ev s)) = false) /\
  propagationStopped (snd (dispatch ev s)) = true /\
  (target ev = OnDropArea ->
     dispatch ev s = dropArea_listeners ev s (dispatched ev)) /\
  (target ev = OnBody -> fst (dispatch ev s) = s) /\
  (kind ev <> drop -> world (fst (dispatch ev s)) = world s) /\
  (target ev = OnDropArea -> kind ev = drop ->
     world (fst (dispatch ev s)) = step (Drop (transfer ev)) (world s) /\
     dropArea_highlight (fst (dispatch ev s)) = false).
Proof.
  destruct ev as [k t dt].
  unfold dispatch, dropArea_listeners, body_listeners, dispatched.
  cbn [target kind transfer].
  destruct t, k; cbn; repeat split; try congruence; try discriminate.
Qed.

Section DragSequences.

Lemma drag_cons (ev : DragEvent) (events : list DragEvent) (s : Surface) :
  drag (ev :: events) s = drag events (fst (dispatch ev s)).
Proof. reflexivity. Qed.

Lemma dispatch_effect (ev : DragEvent) (s : Surface) :
  dropArea_highlight (fst (dispatch ev s))
    = highlight_after [ev] (dropArea_highlight s) /\
  world (fst (dispatch ev s)) = run (drops_on_area [ev]) (world s).
Proof.
  destruct ev as [k t dt]. unfold dispatch, dropArea_listeners, body_listeners.
  cbn [target kind transfer highlight_after drops_on_area flat_map app].
  destruct t, k; cbn; split; reflexivity.
Qed.

Lemma drops_on_area_cons (ev : DragEvent) (events : list DragEvent) :
  drops_on_area (ev :: events) = drops_on_area [ev] ++ drops_on_area events.
Proof.
  unfold drops_on_area. cbn [flat_map]. rewrite app_nil_r. reflexivity.
Qed.

End DragSequences.

(** X14. A sequence of drag events leaves the drop area highlighted exactly
    when the last event on the drop area was a [dragenter] or a
    [dragover] (when there was none, as it was before), and acts on the
    page as the sequence of its drops on the drop area does: in
    particular the highlight is off after every drop, accepted or
    rejected. *)
Theorem drag_sequence_effect (events : list DragEvent) (s : Surface) :
  dropArea_highlight (drag events s)
    = highlight_after events (dropArea_highlight s) /\
  world (drag events s) = run (drops_on_area events) (world s).
Proof.
  revert s. induction events as [|ev events IH]; intros s;
    [split; reflexivity|].
  rewrite drag_cons.
  destruct (IH (fst (dispatch ev s))) as [Hh Hw].
  destruct (dispatch_effect ev s) as [Hh1 Hw1].
  rewrite Hh, Hw, Hh1, Hw1. split.
  - reflexivity.
  - rewrite (drops_on_area_cons ev events), run_app. reflexivity.
Qed.

(** ** Invariants of every history *)

Section Histories.

Lemma passes_inputs (w : World) :
  first_violation w = None ->
  credential_configured w = true /\
  Str.truthy (stylePromptInput_value (dom w)) = true.
Proof.
  unfold first_violation, style_nonempty. rewrite truthy_eqb.
  destruct (credential_configured w); [|discriminate].
  destruct (image_present w); [|discriminate].
  destruct (negb (stylePromptInput_value (dom w) =? "")%string);
    [auto | discriminate].
Qed.

Lemma step_credential (e : Event) (w : World) :
  API_KEY (step e w) = API_KEY w.
Proof.
  destruct e.
  - cbn [step]. destruct (generateButton_disabled (dom w)); [reflexivity|].
    destruct (first_violation w) as [v|] eqn:Hv.
    + rewrite (runRedesigner_violation w v Hv). reflexivity.
    + destruct (runRedesigner_passes w Hv) as (file & _ & _ & _ & Hk & _).
      exact Hk.
  - destruct (intake_frame (Drop dataTransfer) w eq_refl) as (_ & _ & Hk & _);
      [discriminate | exact Hk].
  - destruct (intake_frame (Change files) w eq_refl) as (_ & _ & Hk & _);
      [discriminate | exact Hk].
  - reflexivity.
  - cbn [step]. destruct (nth_error (previewReaders w) reader); reflexivity.
  - cbn [step]. destruct (exchange w); reflexivity.
  - cbn [step]. destruct (exchange w); try reflexivity.
    apply settled_keeps_inputs.
  - cbn [step]. destruct (exchange w); reflexivity.
Qed.

Lemma step_guarded (e : Event) (w : World) :
  guarded w -> guarded (step e w).
Proof.
  intros (Hread & Hreqs & Hkey).
  unfold guarded, credential_configured in *.
  rewrite (step_credential e w).
  destruct (step_requests e w)
    as [Hsame | (file & stylePrompt & result & He & Hx & Happ)].
  - rewrite Hsame. split; [|split; assumption].
    intros file stylePrompt Hx'.
    destruct e.
    + cbn [step] in Hx'.
      destruct (generateButton_disabled (dom w)); [apply (Hread _ _ Hx')|].
      destruct (first_violation w) as [v|] eqn:Hv.
      * rewrite (runRedesigner_violation w v Hv) in Hx'.
        apply (Hread _ _ Hx').
      * destruct (runRedesigner_passes w Hv) as (f & _ & Hx1 & _).
        rewrite Hx1 in Hx'. injection Hx' as _ <-.
        destruct (passes_inputs w Hv) as [Hk Hs]. split; assumption.
    + destruct (intake_frame (Drop dataTransfer) w eq_refl) as (Hx1 & _);
        [discriminate|].
      rewrite Hx1 in Hx'. apply (Hread _ _ Hx').
    + destruct (intake_frame (Change files) w eq_refl) as (Hx1 & _);
        [discriminate|].
      rewrite Hx1 in Hx'. apply (Hread _ _ Hx').
    + apply (Hread _ _ Hx').
    + destruct (intake_frame (PreviewLoadEnd reader result) w eq_refl)
        as (Hx1 & _); [discriminate|].
      rewrite Hx1 in Hx'. apply (Hread _ _ Hx').
    + cbn [step] in Hx'. destruct (exchange w) eqn:Hxw; cbv iota in Hx';
        try (rewrite Hxw in Hx'; discriminate Hx').
      cbn in Hx'. discriminate Hx'.
    + cbn [step] in Hx'.
      destruct (exchange w) as [|f s|s|] eqn:Hxw; cbv iota in Hx'.
      * rewrite Hxw in Hx'. discriminate Hx'.
      * rewrite Hxw in Hx'. apply (Hread _ _ Hx').
      * destruct (settled_enables settled s w) as [_ Hidle].
        rewrite Hidle in Hx'. discriminate Hx'.
      * rewrite Hxw in Hx'. discriminate Hx'.
    + cbn [step] in Hx'. destruct (exchange w) eqn:Hxw; cbv iota in Hx';
        try (rewrite Hxw in Hx'; discriminate Hx').
      cbn in Hx'. discriminate Hx'.
  - subst e. destruct (Hread file stylePrompt Hx) as [Hs Hk].
    rewrite Happ. split; [|split].
    + intros f s Hx'. rewrite (step_read_end result file stylePrompt w Hx) in Hx'.
      discriminate Hx'.
    + apply Forall_app. split; [exact Hreqs|].
      constructor; [|constructor].
      exists file, result, stylePrompt. split; [reflexivity | exact Hs].
    + intros _. exact Hk.
Qed.

Lemma run_guarded (events : list Event) :
  forall w : World, guarded w -> guarded (run events w).
Proof.
  induction events as [|e events IH]; intros w Hg; [exact Hg|].
  change (run (e :: events) w) with (run events (step e w)).
  apply IH, step_guarded, Hg.
Qed.

Lemma boot_guarded (key : option string) (d : Dom) : guarded (boot key d).
Proof.
  split; [|split].
  - intros file stylePrompt Hx. discriminate Hx.
  - constructor.
  - intros Hne. exfalso. apply Hne. reflexivity.
Qed.

Lemma step_trigger_tracks (e : Event) (w : World) :
  trigger_tracks_exchange w -> trigger_tracks_exchange (step e w).
Proof.
  unfold trigger_tracks_exchange. intros Inv.
  destruct (intake_event e) eqn:Hin.
  - destruct (generateButton_disabled (dom w)) eqn:Hd.
    + destruct (intake_frame e w Hin (fun _ => Hd)) as (Hx & _ & _ & Hd').
      rewrite Hx, Hd', Hd. exact Inv.
    + destruct e; try discriminate Hin;
        try (destruct (intake_frame _ w Hin) as (Hx & _ & _ & Hd');
             [discriminate | rewrite Hx, Hd', Hd; exact Inv]).
      cbn [step]. rewrite Hd.
      destruct (first_violation w) as [v|] eqn:Hv.
      * rewrite (runRedesigner_violation w v Hv).
        change (generateButton_disabled (dom (alert (violation_alert v) w)))
          with (generateButton_disabled (dom w)).
        change (exchange (alert (violation_alert v) w)) with (exchange w).
        rewrite Hd. exact Inv.
      * destruct (runRedesigner_passes w Hv) as (f & _ & Hx & _ & _ & Hd').
        rewrite Hx, Hd'. split; [discriminate | reflexivity].
  - destruct e; try discriminate Hin; cbn [step].
    + destruct (exchange w) as [|file stylePrompt|stylePrompt|] eqn:Hx;
        try (rewrite Hx; exact Inv).
      cbn. split; [discriminate|]. intros _. apply Inv. discriminate.
    + destruct (exchange w) as [|file stylePrompt|stylePrompt|] eqn:Hx;
        try (rewrite Hx; exact Inv).
      destruct (settled_enables settled stylePrompt w) as [Hd' Hx'].
      rewrite Hd', Hx'. split; [discriminate|].
      intros Hne. exfalso. apply Hne. reflexivity.
    + destruct (exchange w) as [|file stylePrompt|stylePrompt|] eqn:Hx;
        try (rewrite Hx; exact Inv).
      cbn. split; [discriminate|]. intros _. apply Inv. discriminate.
Qed.

Lemma run_trigger_tracks (events : list Event) :
  forall w : World,
    trigger_tracks_exchange w -> trigger_tracks_exchange (run events w).
Proof.
  induction events as [|e events IH]; intros w Inv; [exact Inv|].
  change (run (e :: events) w) with (run events (step e w)).
  apply IH, step_trigger_tracks, Inv.
Qed.

Lemma handleFiles_alerts (files : list File) (w : World) :
  alerts (handleFiles files w) = alerts w \/
  alerts (handleFiles files w) = alerts w ++ [rejection].
Proof.
  unfold handleFiles. destruct (nth_error files 0) as [file|]; [|right; reflexivity].
  destruct (Str.startsWith (type file) "image/");
    [left | right]; reflexivity.
Qed.

(** Every event raises at most one alert, and a known one. *)
Lemma step_alerts (e : Event) (w : World) :
  alerts (step e w) = alerts w \/
  exists msg, In msg known_alerts /\ alerts (step e w) = alerts w ++ [msg].
Proof.
  assert (Hrej : In rejection known_alerts) by (left; reflexivity).
  destruct e; cbn [step].
  - destruct (generateButton_disabled (dom w)); [left; reflexivity|].
    destruct (first_violation w) as [v|] eqn:Hv.
    + right. exists (violation_alert v). split.
      * destruct v; cbn; auto.
      * rewrite (runRedesigner_violation w v Hv). reflexivity.
    + left. destruct (runRedesigner_passes w Hv) as (f & Hf & _).
      rewrite (runRedesigner_starts w f Hv Hf). reflexivity.
  - unfold handleDrop. destruct dataTransfer as [files|]; [|left; reflexivity].
    destruct (Nat.ltb 0 (List.length files)); [|left; reflexivity].
    unfold seq.
    destruct (handleFiles_alerts files (with_dom (set_files files) w))
      as [H | H]; rewrite H; [left | right; exists rejection; split];
      auto.
  - destruct files as [fs|]; [|left; reflexivity].
    unfold seq, handleFileSelect.
    destruct (handleFiles_alerts fs (with_dom (set_files fs) w))
      as [H | H]; rewrite H; [left | right; exists rejection; split];
      auto.
  - left. reflexivity.
  - left. destruct (nth_error (previewReaders w) reader); reflexivity.
  - left. destruct (exchange w); reflexivity.
  - left. destruct (exchange w); try reflexivity. apply settled_keeps_inputs.
  - left. destruct (exchange w); reflexivity.
Qed.

End Histories.

(** X15. The preconditions hold for everything that is ever sent. In every
    history of the loaded page each request was built by the exchange from
    a file read and a style that is not empty, names the fixed model and
    asks for image and text; and if any request was sent, the credential is
    configured. *)
Theorem nothing_sent_without_credential_and_style
  (key : option string) (d : Dom) (history : list Event) :
  let sent := requests (run history (boot key d)) in
  Forall built_by_exchange sent /\
  Forall (fun r => model r = "gemini-2.5-flash-image-preview" /\
                   config_responseModalities r = [IMAGE; TEXT]) sent /\
  (sent <> [] -> Str.truthy_opt key = true).
Proof.
  intros sent.
  destruct (run_guarded history (boot key d) (boot_guarded key d))
    as (_ & Hreqs & Hkey).
  fold sent in Hreqs, Hkey. split; [exact Hreqs|]. split.
  - apply (Forall_impl _ (P := built_by_exchange)); [|exact Hreqs].
    intros r (file & result & stylePrompt & -> & _). split; reflexivity.
  - intros Hne. specialize (Hkey Hne). unfold credential_configured in Hkey.
    assert (Hk : API_KEY (run history (boot key d)) = key).
    { clear. induction history as [|e history IH] using rev_ind;
        [reflexivity|].
      rewrite run_app. change (run [e] ?w) with (step e w).
      rewrite step_credential. exact IH. }
    rewrite Hk in Hkey. exact Hkey.
Qed.

(** X16. In every history of a page whose trigger starts enabled, the
    trigger is disabled exactly while the exchange is suspended: it is
    never left disabled once the exchange is over, and never enabled while
    a file read or a call is outstanding. *)
Theorem trigger_disabled_iff_suspended
  (key : option string) (d : Dom) (history : list Event) :
  generateButton_disabled d = false ->
  let w := run history (boot key d) in
  generateButton_disabled (dom w) = true <-> exchange w <> Idle.
Proof.
  intros Hen w.
  apply (run_trigger_tracks history (boot key d)).
  unfold trigger_tracks_exchange. cbn [boot dom exchange]. rewrite Hen.
  split; [discriminate|]. intros Hne. exfalso. apply Hne. reflexivity.
Qed.

Lemma trigger_disabled_iff_suspended_witness :
  let f := {| type := "image/png"; bytes := [Byte.x89; Byte.x50] |} in
  let d :=
    {| fileInput_files := [f]; imagePreviewContainer := [];
       stylePromptInput_value := "boho"; generateButton_disabled := false;
       outputImage_src := ""; outputImage_alt := "";
       outputImage_display := "none";
       outputPlaceholder_textContent := "";
       outputPlaceholder_display := "block" |} in
  let w := run [Click; ReadLoadEnd (dataURL f)] (boot (Some "key") d) in
  generateButton_disabled (dom w) = true <-> exchange w <> Idle.
Proof.
  intros f d.
  apply (trigger_disabled_iff_suspended (Some "key") d
           [Click; ReadLoadEnd (dataURL f)]).
  reflexivity.
Defined.

(** X17. The page raises alerts for the intake and the preconditions only.
    In every history each alert is one of four messages: the rejection of
    a file that is no image, the missing credential, the missing image, the
    missing style. A failure of the remote call is never alerted. *)
Theorem alerts_are_known
  (key : option string) (d : Dom) (history : list Event) :
  Forall (fun msg => In msg known_alerts)
    (alerts (run history (boot key d))).
Proof.
  induction history as [|e history IH] using rev_ind; [constructor|].
  rewrite run_app. change (run [e] ?w) with (step e w).
  destruct (step_alerts e (run history (boot key d)))
    as [Hsame | (msg & Hin & Happ)].
  - rewrite Hsame. exact IH.
  - rewrite Happ. apply Forall_app. split; [exact IH|].
    constructor; [exact Hin | constructor].
Qed.
